(** * raycast-openai-server: the prompt formatter and the completion handler

    A shallow embedding of [src/start-openai-server.tsx]: the JavaScript
    values the handler receives from [JSON.parse], the string operations the
    formatters use, the nine-way family dispatch of [formatPromptForModel],
    the seven formatters, and the request handler registered on the ["end"]
    event of a [POST /v1/chat/completions] request, as a function from the
    parsed body and the inference capability to the trace of effects on the
    response. *)

From Stdlib Require Import String Ascii List ZArith Lia Bool DecimalString.
From Stdlib Require DecimalNat FinFun.
Import ListNotations.
Open Scope string_scope.
Open Scope bool_scope.
Set Warnings "-register-all".

(** ** JavaScript strings

    A string is the sequence of its bytes in UTF-8.  Every literal of the
    program is ASCII, so [includes], [endsWith] and [slice] on bytes agree
    with the same operations on UTF-16 code units. *)

Module JS.

Definition LF : string := String "010"%char "".

Definition isUpper (c : ascii) : bool :=
  (65 <=? nat_of_ascii c)%nat && (nat_of_ascii c <=? 90)%nat.

Definition lowerAscii (c : ascii) : ascii :=
  if isUpper c then ascii_of_nat (nat_of_ascii c + 32) else c.

(** [String.prototype.toLowerCase].  [A]..[Z] go to [a]..[z].  Two letters
    outside ASCII have a lower case that holds an ASCII letter: the Kelvin
    sign U+212A (bytes E2 84 AA) becomes [k], and U+0130 (bytes C4 B0)
    becomes [i] followed by U+0307 (bytes CC 87).  Every other letter outside
    ASCII lowers to letters outside ASCII; the program only searches the
    result for ASCII words, so those bytes are kept as they are. *)
Fixpoint toLowerCase (s : string) : string :=
  match s with
  | EmptyString => EmptyString
  | String c rest =>
      match c, rest with
      | "226"%char, String "132"%char (String "170"%char rest') =>
          String "k"%char (toLowerCase rest')
      | "196"%char, String "176"%char rest' =>
          String "i"%char (String "204"%char (String "135"%char (toLowerCase rest')))
      | _, _ => String (lowerAscii c) (toLowerCase rest)
      end
  end.

(** [s.startsWith(p)] *)
Fixpoint startsWith (p s : string) : bool :=
  match p, s with
  | EmptyString, _ => true
  | String a p', String b s' => Ascii.eqb a b && startsWith p' s'
  | String _ _, EmptyString => false
  end.

(** [s.includes(p)]: [p] occurs in [s] at some position. *)
Fixpoint includes (p s : string) : bool :=
  startsWith p s ||
  match s with
  | EmptyString => false
  | String _ s' => includes p s'
  end.

(** [s.endsWith(p)]: the last [length p] units of [s] are [p]. *)
Definition endsWith (p s : string) : bool :=
  (String.length p <=? String.length s)%nat &&
  String.eqb (substring (String.length s - String.length p) (String.length p) s) p.

(** [s.slice(0, -n)]: [s] without its last [n] units. *)
Definition sliceEnd (s : string) (n : nat) : string :=
  substring 0 (String.length s - n) s.

(** [strs.join(sep)] on an array of strings. *)
Definition join (sep : string) (strs : list string) : string :=
  String.concat sep strs.

(** ** JavaScript values

    What [JSON.parse] returns, and [undefined], which a read of a missing
    property gives.  A number is carried as its [ToString] text, which is all
    the program observes of it (a number is falsy exactly when that text is
    [0] or [NaN]).  An object is the list of its own properties; [JSON.parse]
    keeps one entry per key. *)

Inductive value : Type :=
| VUndefined
| VNull
| VBool (b : bool)
| VNumber (text : string)
| VString (s : string)
| VArray (elems : list value)
| VObject (props : list (string * value)).

(** A completion: a JavaScript evaluation returns or throws an error, of
    which the program reads the [message]. *)
Inductive completion (A : Type) : Type :=
| Normal (a : A)
| Throw (message : string).
Arguments Normal {A} a.
Arguments Throw {A} message.

Definition bind {A B} (c : completion A) (k : A -> completion B) : completion B :=
  match c with
  | Normal a => k a
  | Throw m => Throw m
  end.

Notation "x <- c ;; k" := (bind c (fun x => k))
  (at level 61, c at next level, right associativity).
Notation "' pat <- c ;; k" := (bind c (fun x => match x with pat => k end))
  (at level 61, pat pattern, c at next level, right associativity).

Fixpoint lookup (key : string) (props : list (string * value)) : option value :=
  match props with
  | [] => None
  | (k, v) :: rest => if String.eqb k key then Some v else lookup key rest
  end.

Definition hasOwn (key : string) (props : list (string * value)) : bool :=
  match lookup key props with Some _ => true | None => false end.

(** [v.key] for the property names the program reads ([model], [messages],
    [stream], [role], [content]): none of them is defined on a prototype, so
    the read finds an own property of an object or gives [undefined]; on
    [null] and [undefined] it throws a TypeError (V8's wording). *)
Definition get (v : value) (key : string) : completion value :=
  match v with
  | VUndefined => Throw ("Cannot read properties of undefined (reading '" ++ key ++ "')")
  | VNull => Throw ("Cannot read properties of null (reading '" ++ key ++ "')")
  | VObject props =>
      Normal (match lookup key props with Some x => x | None => VUndefined end)
  | _ => Normal VUndefined
  end.

(** [v?.key]: [undefined] on [null] and [undefined], a read otherwise. *)
Definition optGet (v : value) (key : string) : completion value :=
  match v with
  | VUndefined | VNull => Normal VUndefined
  | _ => get v key
  end.

(** [arr[0]] *)
Definition first (arr : list value) : value :=
  match arr with
  | [] => VUndefined
  | x :: _ => x
  end.

(** [v === 'lit'] against a string literal. *)
Definition strictEq (v : value) (lit : string) : bool :=
  match v with
  | VString s => String.eqb s lit
  | _ => false
  end.

(** [v === true] *)
Definition isTrue (v : value) : bool :=
  match v with
  | VBool true => true
  | _ => false
  end.

(** [ToBoolean] *)
Definition truthy (v : value) : bool :=
  match v with
  | VUndefined | VNull => false
  | VBool b => b
  | VNumber text => negb (String.eqb text "0" || String.eqb text "NaN")
  | VString s => negb (String.eqb s "")
  | VArray _ | VObject _ => true
  end.

Definition isArray (v : value) : bool :=
  match v with
  | VArray _ => true
  | _ => false
  end.

(** [ToString], as a template literal applies it.  An array is joined with
    commas, [null] and [undefined] elements giving the empty string.  A
    parsed object has [Object.prototype.toString] unless it has an own
    property [toString], which is never callable: then no method returns a
    primitive and the conversion throws. *)
Fixpoint toString (v : value) : completion string :=
  match v with
  | VUndefined => Normal "undefined"
  | VNull => Normal "null"
  | VBool true => Normal "true"
  | VBool false => Normal "false"
  | VNumber text => Normal text
  | VString s => Normal s
  | VArray elems =>
      (fix joinElems (l : list value) : completion string :=
         match l with
         | [] => Normal ""
         | x :: rest =>
             sx <- match x with
                   | VUndefined | VNull => Normal ""
                   | _ => toString x
                   end ;;
             match rest with
             | [] => Normal sx
             | _ :: _ => srest <- joinElems rest ;; Normal (sx ++ "," ++ srest)
             end
         end) elems
  | VObject props =>
      if hasOwn "toString" props
      then Throw "Cannot convert object to primitive value"
      else Normal "[object Object]"
  end.

(** [arr.forEach(msg => { prompt += ... })]: the callbacks run in order on
    the accumulated [prompt]; a throw ends the loop. *)
Fixpoint forEach (arr : list value) (prompt : string)
    (body : string -> value -> completion string) : completion string :=
  match arr with
  | [] => Normal prompt
  | msg :: rest => p <- body prompt msg ;; forEach rest p body
  end.

(** [arr.map(f)] *)
Fixpoint arrayMap (f : value -> completion string) (arr : list value)
    : completion (list string) :=
  match arr with
  | [] => Normal []
  | msg :: rest => s <- f msg ;; ss <- arrayMap f rest ;; Normal (s :: ss)
  end.

End JS.

Import JS.

(** ** The formatters *)

(** [formatLlama3]: [<|begin_of_text|>], a header block per message, an open
    assistant header. *)
Definition formatLlama3 (messages : list value) : completion string :=
  prompt <- forEach messages "<|begin_of_text|>" (fun prompt msg =>
    r <- get msg "role" ;;
    let role := if strictEq r "assistant" then "assistant"
                else if strictEq r "system" then "system" else "user" in
    c <- get msg "content" ;;
    content <- toString c ;;
    Normal (prompt ++ "<|start_header_id|>" ++ role ++ "<|end_header_id|>"
                   ++ LF ++ LF ++ content ++ "<|eot_id|>")) ;;
  Normal (prompt ++ "<|start_header_id|>assistant<|end_header_id|>" ++ LF ++ LF).

(** The body of the loop of [formatLlama2] over the remaining messages. *)
Definition llama2Turn (prompt : string) (msg : value) : completion string :=
  r <- get msg "role" ;;
  if strictEq r "user" then
    c <- get msg "content" ;;
    content <- toString c ;;
    Normal (prompt ++ "[INST] " ++ content ++ " [/INST]")
  else if strictEq r "assistant" then
    c <- get msg "content" ;;
    content <- toString c ;;
    Normal (prompt ++ " " ++ content ++ " </s><s>")
  else Normal prompt.

(** [formatLlama2]: [<s>], the system block of a leading system message, the
    remaining messages, and the trailing [<s>] removed. *)
Definition formatLlama2 (messages : list value) : completion string :=
  r0 <- optGet (first messages) "role" ;;
  '(prompt, hasSystemPrompt) <-
    (if strictEq r0 "system" then
       c <- get (first messages) "content" ;;
       content <- toString c ;;
       Normal ("<s>" ++ "[INST] <<SYS>>" ++ LF ++ content ++ LF ++ "<</SYS>>" ++ LF ++ LF,
               true)
     else Normal ("<s>", false)) ;;
  prompt <- forEach (skipn (if hasSystemPrompt then 1 else 0) messages) prompt llama2Turn ;;
  Normal (if endsWith "<s>" prompt then sliceEnd prompt 3 else prompt).

(** [formatMistral] *)
Definition formatMistral (messages : list value) : completion string :=
  forEach messages "<s>" (fun prompt msg =>
    r <- get msg "role" ;;
    if strictEq r "user" then
      c <- get msg "content" ;;
      content <- toString c ;;
      Normal (prompt ++ "[INST] " ++ content ++ " [/INST]")
    else if strictEq r "assistant" then
      c <- get msg "content" ;;
      content <- toString c ;;
      Normal (prompt ++ content ++ "</s>")
    else Normal prompt).

(** [formatClaude] *)
Definition formatClaude (messages : list value) : completion string :=
  prompt <- forEach messages "" (fun prompt msg =>
    r <- get msg "role" ;;
    if strictEq r "system" then
      c <- get msg "content" ;;
      content <- toString c ;;
      Normal (prompt ++ content ++ LF ++ LF)
    else if strictEq r "user" then
      c <- get msg "content" ;;
      content <- toString c ;;
      Normal (prompt ++ "User: " ++ content ++ LF ++ LF)
    else if strictEq r "assistant" then
      c <- get msg "content" ;;
      content <- toString c ;;
      Normal (prompt ++ "Assistant: " ++ content ++ LF ++ LF)
    else Normal prompt) ;;
  Normal (prompt ++ "Assistant:").

(** [formatGrok] *)
Definition formatGrok (messages : list value) : completion string :=
  prompt <- forEach messages "" (fun prompt msg =>
    r <- get msg "role" ;;
    if strictEq r "system" then
      c <- get msg "content" ;;
      content <- toString c ;;
      Normal (prompt ++ "System Instruction:" ++ LF ++ content ++ LF ++ LF)
    else if strictEq r "user" then
      c <- get msg "content" ;;
      content <- toString c ;;
      Normal (prompt ++ "User:" ++ LF ++ content ++ LF ++ LF)
    else if strictEq r "assistant" then
      c <- get msg "content" ;;
      content <- toString c ;;
      Normal (prompt ++ "Assistant:" ++ LF ++ content ++ LF ++ LF)
    else Normal prompt) ;;
  Normal (prompt ++ "Assistant:" ++ LF).

(** The callback of [formatSimpleChat]: the line of one message. *)
Definition simpleChatLine (isSystemSupported : bool) (msg : value) : completion string :=
  r <- get msg "role" ;;
  if negb isSystemSupported && strictEq r "system" then
    c <- get msg "content" ;;
    content <- toString c ;;
    Normal ("(System Instruction: " ++ content ++ ")")
  else
    role <- toString r ;;
    c <- get msg "content" ;;
    content <- toString c ;;
    Normal (role ++ ": " ++ content).

(** [formatSimpleChat] *)
Definition formatSimpleChat (messages : list value) (isSystemSupported : bool)
    : completion string :=
  lines <- arrayMap (simpleChatLine isSystemSupported) messages ;;
  Normal (join (LF ++ LF) lines).

(** [formatDefault] *)
Definition formatDefault (messages : list value) : completion string :=
  lines <- arrayMap (fun msg =>
    r <- get msg "role" ;;
    role <- toString r ;;
    c <- get msg "content" ;;
    content <- toString c ;;
    Normal ("<" ++ role ++ ">: " ++ content)) messages ;;
  Normal (join (LF ++ LF) lines).

(** [modelId.toLowerCase()]: a method of strings only; on any other value
    the call throws a TypeError (V8's wording). *)
Definition callToLowerCase (modelId : value) : completion string :=
  match modelId with
  | VString s => Normal (toLowerCase s)
  | _ => _ <- get modelId "toLowerCase" ;; Throw "modelId.toLowerCase is not a function"
  end.

(** [formatPromptForModel] *)
Definition formatPromptForModel (messages : list value) (modelId : value)
    : completion string :=
  modelIdLower <- callToLowerCase modelId ;;
  if includes "llama3.1" modelIdLower || includes "llama-4" modelIdLower then
    formatLlama3 messages
  else if includes "llama3" modelIdLower || includes "llama-3.3" modelIdLower then
    formatLlama3 messages
  else if includes "llama2" modelIdLower || includes "codellama" modelIdLower then
    formatLlama2 messages
  else if includes "mistral" modelIdLower || includes "nemo" modelIdLower
          || includes "codestral" modelIdLower then
    formatMistral messages
  else if includes "anthropic" modelIdLower || includes "claude" modelIdLower then
    formatClaude messages
  else if includes "grok" modelIdLower then
    formatGrok messages
  else if includes "deepseek" modelIdLower then
    formatLlama2 messages
  else if includes "openai" modelIdLower || includes "google" modelIdLower
          || includes "gemini" modelIdLower then
    formatSimpleChat messages (includes "openai" modelIdLower)
  else
    formatDefault messages.

(** ** [JSON.stringify] *)

Module Json.

Definition DQ : string := String "034"%char "".

Definition hexDigit (n : nat) : ascii :=
  if (n <? 10)%nat then ascii_of_nat (48 + n) else ascii_of_nat (87 + n).

(** One unit of [QuoteJSONString]: the two-character escapes, [\u00xx] for
    the other control characters, the unit itself otherwise. *)
Definition quoteChar (c : ascii) : string :=
  let n := nat_of_ascii c in
  if (n =? 8)%nat then "\b"
  else if (n =? 9)%nat then "\t"
  else if (n =? 10)%nat then "\n"
  else if (n =? 12)%nat then "\f"
  else if (n =? 13)%nat then "\r"
  else if (n =? 34)%nat then "\" ++ DQ
  else if (n =? 92)%nat then "\\"
  else if (n <? 32)%nat then
    "\u00" ++ String (hexDigit (n / 16)) (String (hexDigit (n mod 16)) "")
  else String c "".

Fixpoint quoteChars (s : string) : string :=
  match s with
  | EmptyString => EmptyString
  | String c rest => quoteChar c ++ quoteChars rest
  end.

Definition quote (s : string) : string := DQ ++ quoteChars s ++ DQ.

(** [SerializeJSONProperty]: [None] is [undefined], which an object leaves
    out and an array writes as [null].  A number that is not finite is
    written [null]. *)
Fixpoint serialize (v : value) : option string :=
  match v with
  | VUndefined => None
  | VNull => Some "null"
  | VBool true => Some "true"
  | VBool false => Some "false"
  | VNumber text =>
      if String.eqb text "NaN" || String.eqb text "Infinity" || String.eqb text "-Infinity"
      then Some "null" else Some text
  | VString s => Some (quote s)
  | VArray elems =>
      Some ("[" ++ join ","
              (List.map (fun x => match serialize x with Some t => t | None => "null" end)
                        elems) ++ "]")
  | VObject props =>
      Some ("{" ++ join ","
              ((fix members (l : list (string * value)) : list string :=
                  match l with
                  | [] => []
                  | (k, x) :: rest =>
                      match serialize x with
                      | Some t => (quote k ++ ":" ++ t) :: members rest
                      | None => members rest
                      end
                  end) props) ++ "}")
  end.

(** [JSON.stringify(v)], as the operand of a string concatenation. *)
Definition stringify (v : value) : string :=
  match serialize v with
  | Some t => t
  | None => "undefined"
  end.

(** An integer as a number value. *)
Definition ofZ (z : Z) : value := VNumber (NilZero.string_of_int (Z.to_int z)).

End Json.

(** ** The inference capability and the response

    [AI.ask(prompt, { model: AI.Model[model] })] throws, or returns an answer
    that emits [data] events and then settles.  Each event carries the
    reading of [Date.now()] (milliseconds) at the moment its callback runs.
    An answer here has settled: it is its finitely many [data] events and
    the settlement that follows them.  An answer that stays pending is not
    described, and what is proved of a response is proved of the runs in
    which the answer settles. *)

Record Fragment : Type := { fragTime : Z ; fragData : string }.

Inductive Settlement : Type :=
| Resolves (time : Z) (result : string)
| Rejects (message : string).

Record Answer : Type := { fragments : list Fragment ; settlement : Settlement }.

Definition Capability : Type := string -> value -> completion Answer.

(** What the handler does to the outside, in order. *)
Inductive Effect : Type :=
| Ask (prompt : string) (model : value)
| WriteHead (status : Z) (headers : list (string * string))
| Write (chunk : string)
| End (chunk : option string).

(** A computation of the handler: the effects performed so far and how the
    evaluation completed. *)
Definition io (A : Type) : Type := (list Effect * completion A)%type.

Definition ioBind {A B} (c : io A) (k : A -> io B) : io B :=
  match c with
  | (t, Normal a) => let '(t', r) := k a in ((t ++ t')%list, r)
  | (t, Throw m) => (t, Throw m)
  end.

Definition pure {A} (c : completion A) : io A := ([], c).
Definition emit (e : Effect) : io unit := ([e], Normal tt).
Definition emitAll (es : list Effect) : io unit := (es, Normal tt).

Notation "x <~ c ;; k" := (ioBind c (fun x => k))
  (at level 61, c at next level, right associativity).
Notation "c ;;; k" := (ioBind c (fun _ => k))
  (at level 61, right associativity).

(** ** The handler of [POST /v1/chat/completions] *)

Definition jsonHeaders : list (string * string) :=
  [("Content-Type", "application/json")].

Definition sseHeaders : list (string * string) :=
  [("Content-Type", "text/event-stream");
   ("Cache-Control", "no-cache");
   ("Connection", "keep-alive")].

(** [res.writeHead(status, json); res.end(JSON.stringify(body))] *)
Definition respond (status : Z) (body : value) : io unit :=
  emit (WriteHead status jsonHeaders) ;;;
  emit (End (Some (Json.stringify body))).

(** [Math.floor(Date.now() / 1000)] *)
Definition created (now : Z) : value := Json.ofZ (now / 1000).

(** The envelope written for a [data] event. *)
Definition deltaChunk (model : value) (now : Z) (data : string) : value :=
  VObject [("id", VString "chatcmpl-xyz");
           ("object", VString "chat.completion");
           ("model", model);
           ("created", created now);
           ("choices", VArray [VObject [("delta", VObject [("content", VString data)])]])].

(** The envelope written when the answer resolves. *)
Definition finalChunk (model : value) (now : Z) : value :=
  VObject [("id", VString "chatcmpl-xyz");
           ("object", VString "chat.completion");
           ("created", created now);
           ("model", model);
           ("choices", VArray [VObject [("delta", VObject [("content", VString "")])]]);
           ("finish_reason", VString "stop")].

(** [responseBody] of the non-streaming mode. *)
Definition responseBody (model : value) (now : Z) (result : string) : value :=
  VObject [("id", VString "chatcmpl-xyz");
           ("object", VString "chat.completion");
           ("created", created now);
           ("model", model);
           ("choices", VArray [VObject [("index", VNumber "0");
                                        ("message", VObject [("role", VString "assistant");
                                                             ("content", VString result)]);
                                        ("finish_reason", VString "stop")]]);
           ("usage", VObject [])].

Definition errorBody (message : string) : value :=
  VObject [("error", VString message)].

(** ["data: " + JSON.stringify(v) + "\n\n"] *)
Definition frame (v : value) : string :=
  "data: " ++ Json.stringify v ++ LF ++ LF.

Definition doneFrame : string := "data: [DONE]" ++ LF ++ LF.

(** The elements of [requestData.messages] once it is known to be an array. *)
Definition elements (v : value) : list value :=
  match v with
  | VArray elems => elems
  | _ => []
  end.

(** [AI.ask(prompt, { model: AI.Model[model] })] *)
Definition callAsk (ai : Capability) (prompt : string) (model : value) : io Answer :=
  ([Ask prompt model], ai prompt model).

(** [requestData.model || "OpenAI_GPT4o-mini"] *)
Definition orDefault (m : value) : value :=
  if truthy m then m else VString "OpenAI_GPT4o-mini".

(** The two branches on [streamMode], once [AI.ask] has returned [answer]:
    the event stream, a frame per [data] event and the frames of the
    settlement; or the awaited result as one JSON body, a rejection being
    thrown to the [catch]. *)
Definition deliver (model : value) (streamMode : bool) (answer : Answer) : io unit :=
  if streamMode then
    emit (WriteHead 200 sseHeaders) ;;;
    emitAll (List.map (fun f => Write (frame (deltaChunk model (fragTime f) (fragData f))))
                      (fragments answer)) ;;;
    match settlement answer with
    | Resolves now _ =>
        emit (Write (frame (finalChunk model now))) ;;;
        emit (Write doneFrame) ;;;
        emit (End None)
    | Rejects message =>
        emit (Write (frame (errorBody message))) ;;;
        emit (End None)
    end
  else
    match settlement answer with
    | Resolves now result => respond 200 (responseBody model now result)
    | Rejects message => pure (Throw message)
    end.

(** The [try] block of the ["end"] callback, on the completion of
    [JSON.parse(body)]. *)
Definition tryBlock (ai : Capability) (parsed : completion value) : io unit :=
  requestData <~ pure parsed ;;
  m <~ pure (get requestData "model") ;;
  let model := orDefault m in
  messages <~ pure (get requestData "messages") ;;
  if negb (truthy messages) || negb (isArray messages) then
    respond 400 (errorBody "Missing or invalid 'messages' in request body")
  else
    prompt <~ pure (formatPromptForModel (elements messages) model) ;;
    if negb (truthy (VString prompt)) then
      respond 400 (errorBody "Missing 'content' in the last message")
    else
      s <~ pure (get requestData "stream") ;;
      let streamMode := isTrue s in
      answer <~ callAsk ai prompt model ;;
      deliver model streamMode answer.

(** The ["end"] callback: the [try] block, and the [catch] that answers 500
    with the message of whatever was thrown. *)
Definition onEnd (ai : Capability) (parsed : completion value) : list Effect :=
  match tryBlock ai parsed with
  | (t, Normal _) => t
  | (t, Throw message) =>
      (t ++ [WriteHead 500 jsonHeaders; End (Some (Json.stringify (errorBody message)))])%list
  end.

(** Observations on a trace. *)
Definition asks (t : list Effect) : list (string * value) :=
  flat_map (fun e => match e with Ask p m => [(p, m)] | _ => [] end) t.

Definition statuses (t : list Effect) : list Z :=
  flat_map (fun e => match e with WriteHead s _ => [s] | _ => [] end) t.

(** The chunks written to the response body, in order. *)
Definition written (t : list Effect) : list string :=
  flat_map (fun e => match e with
                     | Write c => [c]
                     | End (Some c) => [c]
                     | _ => []
                     end) t.

(** Reading a response envelope: [v.key] and [v[n]] where nothing throws,
    and the names of the own properties of an object in their order. *)
Definition field (key : string) (v : value) : value :=
  match get v key with
  | Normal x => x
  | Throw _ => VUndefined
  end.

Definition item (n : nat) (v : value) : value := nth n (elements v) VUndefined.

Definition keys (v : value) : list string :=
  match v with
  | VObject props => List.map fst props
  | _ => []
  end.

(** ** The dispatch and the grammars as the specification words them *)

Inductive Family : Type :=
| Llama3 | Llama2 | Mistral | Claude | Grok | SimpleChat | Default.

(** The rules of the classification in their priority order: the words
    looked for in the lower-cased identifier, and the family they select. *)
Definition rules : list (list string * Family) :=
  [ (["llama3.1"; "llama-4"], Llama3);
    (["llama3"; "llama-3.3"], Llama3);
    (["llama2"; "codellama"], Llama2);
    (["mistral"; "nemo"; "codestral"], Mistral);
    (["anthropic"; "claude"], Claude);
    (["grok"], Grok);
    (["deepseek"], Llama2);
    (["openai"; "google"; "gemini"], SimpleChat) ].

Definition matches (lower : string) (words : list string) : bool :=
  existsb (fun w => includes w lower) words.

(** The first rule one of whose words occurs; [Default] when none does. *)
Fixpoint firstMatch (lower : string) (rs : list (list string * Family)) : Family :=
  match rs with
  | [] => Default
  | (words, fam) :: rest => if matches lower words then fam else firstMatch lower rest
  end.

Definition classify (modelId : string) : Family :=
  firstMatch (toLowerCase modelId) rules.

(** The word the classification matches: the first word, in the priority
    order of the rules, that occurs in the lower-cased identifier. *)
Definition words : list string := flat_map fst rules.

Definition matchedWord (modelId : string) : option string :=
  find (fun w => includes w (toLowerCase modelId)) words.

(** The family of the rule a word belongs to. *)
Definition wordFamily (w : string) : Family :=
  match find (fun r => existsb (String.eqb w) (fst r)) rules with
  | Some (_, fam) => fam
  | None => Default
  end.

(** No rule before the [n]-th matches. *)
Definition noEarlier (n : nat) (lower : string) : bool :=
  negb (existsb (fun r => matches lower (fst r)) (firstn n rules)).

(** The system-role support flag of the SimpleChat family. *)
Definition systemSupported (modelId : string) : bool :=
  includes "openai" (toLowerCase modelId).

(** The formatter of a family. *)
Definition render (fam : Family) (isSystemSupported : bool) (messages : list value)
    : completion string :=
  match fam with
  | Llama3 => formatLlama3 messages
  | Llama2 => formatLlama2 messages
  | Mistral => formatMistral messages
  | Claude => formatClaude messages
  | Grok => formatGrok messages
  | SimpleChat => formatSimpleChat messages isSystemSupported
  | Default => formatDefault messages
  end.

(** The families whose rendering of the empty sequence is the empty
    prompt. *)
Definition emptyOnEmpty (fam : Family) : bool :=
  match fam with
  | Llama2 | SimpleChat | Default => true
  | _ => false
  end.

(** A message of the declared interface [Message], the role being any
    string, and the object [JSON.parse] builds for it. *)
Record Message : Type := { role : string ; content : string }.

Definition ofMessage (m : Message) : value :=
  VObject [("role", VString (role m)); ("content", VString (content m))].

Definition system (c : string) : Message := {| role := "system" ; content := c |}.

(** Llama3: the role of a header block, and the block of a message. *)
Definition collapse (r : string) : string :=
  if String.eqb r "assistant" then "assistant"
  else if String.eqb r "system" then "system"
  else "user".

Definition llama3Block (m : Message) : string :=
  "<|start_header_id|>" ++ collapse (role m) ++ "<|end_header_id|>" ++ LF ++ LF
    ++ content m ++ "<|eot_id|>".

Definition llama3Spec (msgs : list Message) : string :=
  "<|begin_of_text|>" ++ String.concat "" (List.map llama3Block msgs)
    ++ "<|start_header_id|>assistant<|end_header_id|>" ++ LF ++ LF.

(** Mistral: what one message contributes. *)
Definition mistralPiece (m : Message) : string :=
  if String.eqb (role m) "user" then "[INST] " ++ content m ++ " [/INST]"
  else if String.eqb (role m) "assistant" then content m ++ "</s>"
  else "".

Definition mistralSpec (msgs : list Message) : string :=
  "<s>" ++ String.concat "" (List.map mistralPiece msgs).

(** SimpleChat: the line of one message. *)
Definition simpleChatSpecLine (isSystemSupported : bool) (m : Message) : string :=
  if negb isSystemSupported && String.eqb (role m) "system"
  then "(System Instruction: " ++ content m ++ ")"
  else role m ++ ": " ++ content m.

Definition simpleChatSpec (isSystemSupported : bool) (msgs : list Message) : string :=
  join (LF ++ LF) (List.map (simpleChatSpecLine isSystemSupported) msgs).

(** Llama2: the system block, what a later message contributes, and the
    removal of a trailing sequence-start marker. *)
Definition systemBlock (c : string) : string :=
  "[INST] <<SYS>>" ++ LF ++ c ++ LF ++ "<</SYS>>" ++ LF ++ LF.

Definition llama2Piece (m : Message) : string :=
  if String.eqb (role m) "user" then "[INST] " ++ content m ++ " [/INST]"
  else if String.eqb (role m) "assistant" then " " ++ content m ++ " </s><s>"
  else "".

Definition llama2Turns (msgs : list Message) : string :=
  String.concat "" (List.map llama2Piece msgs).

Definition trimStart (s : string) : string :=
  if endsWith "<s>" s then sliceEnd s 3 else s.

(** ** The requests the claims speak of *)

(** A parsed request that passes validation and formatting: [model] is the
    identifier the handler goes on with, [prompt] the prompt it sends, and
    [streamMode] the mode it answers in. *)
Definition accepted (req model : value) (prompt : string) (streamMode : bool) : Prop :=
  exists m msgs s,
    get req "model" = Normal m /\ model = orDefault m /\
    get req "messages" = Normal (VArray msgs) /\
    formatPromptForModel msgs model = Normal prompt /\ prompt <> "" /\
    get req "stream" = Normal s /\ streamMode = isTrue s.

(** The response is one JSON error body under [status], and no inference
    call was made. *)
Definition answered (status : Z) (message : string) (t : list Effect) : Prop :=
  t = [WriteHead status jsonHeaders; End (Some (Json.stringify (errorBody message)))].

(** The three failures before inference: the body does not parse; [messages]
    is absent or not a sequence; the formatter returns the empty prompt. *)
Definition failsBeforeInference (parsed : completion value) : Prop :=
  (exists message, parsed = Throw message)
  \/ (exists req, parsed = Normal req /\
        forall msgs, field "messages" req <> VArray msgs)
  \/ (exists req msgs, parsed = Normal req /\
        field "messages" req = VArray msgs /\
        formatPromptForModel msgs (orDefault (field "model" req)) = Normal "").

(** An envelope carries the constant id and object tag. *)
Definition constantId (v : value) : Prop :=
  field "id" v = VString "chatcmpl-xyz" /\ field "object" v = VString "chat.completion".

(** How the prompt of [formatLlama2] can end before the trailing marker is
    removed: it is the bare marker, or it ends with the system block, with a
    closed instruction, or with the markers after an assistant turn. *)
Definition llama2End (s : string) : Prop :=
  s = "<s>"
  \/ (exists x, s = x ++ ">>" ++ LF ++ LF)
  \/ (exists x, s = x ++ "[/INST]")
  \/ (exists x, s = x ++ "</s><s>").

(** The claim on the failures before inference as it is worded: each of
    them is answered 400 with a JSON error body, without an inference
    call. *)
Definition rejectionClaim (ai : Capability) (parsed : completion value) : Prop :=
  failsBeforeInference parsed ->
  exists message, answered 400 message (onEnd ai parsed).

(** The claim on the empty sequence as it is worded: the request is
    rejected, and no prompt is rendered from it and sent. *)
Definition emptyMessagesClaim (ai : Capability) (req : value) : Prop :=
  field "messages" req = VArray [] ->
  statuses (onEnd ai (Normal req)) = [400%Z] /\ asks (onEnd ai (Normal req)) = [].

(** A capability and requests to run the handler on. *)
Definition sampleAnswer : Answer :=
  {| fragments := [ {| fragTime := 1700000000123 ; fragData := "He" |};
                    {| fragTime := 1700000000456 ; fragData := "llo" |} ];
     settlement := Resolves 1700000001000 "Hello" |}.

Definition sampleAI : Capability := fun _ _ => Normal sampleAnswer.

Definition sampleRequest (stream : bool) : value :=
  VObject [("messages", VArray [ofMessage {| role := "user" ; content := "hi" |}]);
           ("stream", VBool stream)].

Definition emptyLlama3Request : value :=
  VObject [("model", VString "llama3"); ("messages", VArray [])].

(** ** The other grammars and the rest of the server *)

(** Claude and Grok: what one message contributes. *)
Definition claudePiece (m : Message) : string :=
  if String.eqb (role m) "system" then content m ++ LF ++ LF
  else if String.eqb (role m) "user" then "User: " ++ content m ++ LF ++ LF
  else if String.eqb (role m) "assistant" then "Assistant: " ++ content m ++ LF ++ LF
  else "".

Definition grokPiece (m : Message) : string :=
  if String.eqb (role m) "system" then "System Instruction:" ++ LF ++ content m ++ LF ++ LF
  else if String.eqb (role m) "user" then "User:" ++ LF ++ content m ++ LF ++ LF
  else if String.eqb (role m) "assistant" then "Assistant:" ++ LF ++ content m ++ LF ++ LF
  else "".

(** Default: the line of one message. *)
Definition defaultLine (m : Message) : string :=
  "<" ++ role m ++ ">: " ++ content m.

(** Llama2: everything after the sequence-start marker, before the trailing
    marker is removed. *)
Definition llama2Body (msgs : list Message) : string :=
  match msgs with
  | m :: rest =>
      if String.eqb (role m) "system"
      then systemBlock (content m) ++ llama2Turns rest
      else llama2Turns msgs
  | [] => ""
  end.

(** A message that the loop of [formatLlama2] passes over. *)
Definition llama2Skipped (m : Message) : bool :=
  negb (String.eqb (role m) "user") && negb (String.eqb (role m) "assistant").

(** The sequence starts with a system message. *)
Definition leadsWithSystem (msgs : list Message) : bool :=
  match msgs with
  | m :: _ => String.eqb (role m) "system"
  | [] => false
  end.

(** Capabilities that fail: one whose answer rejects after a first
    fragment, one that throws when it is called. *)
Definition rejectedAnswer : Answer :=
  {| fragments := [ {| fragTime := 1700000000123 ; fragData := "He" |} ];
     settlement := Rejects "quota exceeded" |}.

Definition rejectingAI : Capability := fun _ _ => Normal rejectedAnswer.

Definition throwingAI : Capability := fun _ _ => Throw "unknown model".

(** ** The request listener

    [AI.Model] is declared by the Raycast API; the listener reads it only
    through [Object.values(AI.Model)], the list [names] here. *)

(** [index.toString()] on an array index. *)
Definition indexToString (i : nat) : string :=
  NilZero.string_of_uint (Nat.to_uint i).

(** [names.map((modelName, index) => ({ id: index.toString(), name: modelName }))],
    from the index [i] on. *)
Fixpoint modelEntries (i : nat) (names : list string) : list value :=
  match names with
  | [] => []
  | modelName :: rest =>
      VObject [("id", VString (indexToString i)); ("name", VString modelName)]
        :: modelEntries (S i) rest
  end.

(** What the listener does: an effect on the response, or [server.close()]. *)
Inductive ServerEffect : Type :=
| Respond (e : Effect)
| CloseServer.

Definition notFound : list ServerEffect :=
  [Respond (WriteHead 404 jsonHeaders);
   Respond (End (Some (Json.stringify (errorBody "Endpoint not found"))))].

(** The callback of [http.createServer] on a request with [method] and
    [url]; [parsed] is the completion of [JSON.parse] on the body, which only
    the chat completions route reads. *)
Definition listener (names : list string) (ai : Capability) (method url : string)
    (parsed : completion value) : list ServerEffect :=
  if String.eqb method "POST" && String.eqb url "/kill" then
    [Respond (WriteHead 200 jsonHeaders);
     Respond (End (Some (Json.stringify
                           (VObject [("message", VString "Server shutting down")]))));
     CloseServer]
  else if String.eqb method "GET" && String.eqb url "/v1/models" then
    [Respond (WriteHead 200 jsonHeaders);
     Respond (End (Some (Json.stringify (VArray (modelEntries 0 names)))))]
  else if negb (String.eqb method "POST") || negb (String.eqb url "/v1/chat/completions") then
    notFound
  else
    List.map Respond (onEnd ai parsed).

(** Two messages read alike: the read of [role] completes in the same way,
    and so does the conversion of [content] to a string. *)
Definition sameReading (a b : value) : Prop :=
  get a "role" = get b "role"
  /\ (c <- get a "content" ;; toString c) = (c <- get b "content" ;; toString c).

(** ** The text on the wire

    The bytes of the envelopes as [JSON.stringify] and the framing write
    them, spelled out: [model], [content] and [message] stand for the JSON
    text of a string, [seconds] for the decimal text of the time stamp. *)

(** A text between double quotes. *)
Definition quoted (s : string) : string :=
  String "034"%char (s ++ String "034"%char "").

Definition lineFeed : string := String "010"%char "".

(** The decimal text of [Math.floor(now / 1000)]. *)
Definition secondsText (now : Z) : string :=
  NilZero.string_of_int (Z.to_int (now / 1000)).

Definition deltaFrameText (model seconds content : string) : string :=
  "data: {" ++ quoted "id" ++ ":" ++ quoted "chatcmpl-xyz" ++ ","
    ++ quoted "object" ++ ":" ++ quoted "chat.completion" ++ ","
    ++ quoted "model" ++ ":" ++ model ++ ","
    ++ quoted "created" ++ ":" ++ seconds ++ ","
    ++ quoted "choices" ++ ":[{" ++ quoted "delta" ++ ":{"
    ++ quoted "content" ++ ":" ++ content ++ "}}]}" ++ lineFeed ++ lineFeed.

Definition finalFrameText (model seconds : string) : string :=
  "data: {" ++ quoted "id" ++ ":" ++ quoted "chatcmpl-xyz" ++ ","
    ++ quoted "object" ++ ":" ++ quoted "chat.completion" ++ ","
    ++ quoted "created" ++ ":" ++ seconds ++ ","
    ++ quoted "model" ++ ":" ++ model ++ ","
    ++ quoted "choices" ++ ":[{" ++ quoted "delta" ++ ":{"
    ++ quoted "content" ++ ":" ++ quoted "" ++ "}}],"
    ++ quoted "finish_reason" ++ ":" ++ quoted "stop" ++ "}" ++ lineFeed ++ lineFeed.

Definition doneFrameText : string := "data: [DONE]" ++ lineFeed ++ lineFeed.

Definition errorFrameText (message : string) : string :=
  "data: {" ++ quoted "error" ++ ":" ++ message ++ "}" ++ lineFeed ++ lineFeed.

Definition responseText (model seconds content : string) : string :=
  "{" ++ quoted "id" ++ ":" ++ quoted "chatcmpl-xyz" ++ ","
    ++ quoted "object" ++ ":" ++ quoted "chat.completion" ++ ","
    ++ quoted "created" ++ ":" ++ seconds ++ ","
    ++ quoted "model" ++ ":" ++ model ++ ","
    ++ quoted "choices" ++ ":[{" ++ quoted "index" ++ ":0,"
    ++ quoted "message" ++ ":{" ++ quoted "role" ++ ":" ++ quoted "assistant" ++ ","
    ++ quoted "content" ++ ":" ++ content ++ "},"
    ++ quoted "finish_reason" ++ ":" ++ quoted "stop" ++ "}],"
    ++ quoted "usage" ++ ":{}}".

(** A string that [JSON.stringify] writes as it is between the quotes: no
    control character, no double quote, no backslash. *)
Fixpoint plainText (s : string) : bool :=
  match s with
  | EmptyString => true
  | String c rest =>
      (32 <=? nat_of_ascii c)%nat
      && negb (nat_of_ascii c =? 34)%nat
      && negb (nat_of_ascii c =? 92)%nat
      && plainText rest
  end.



(** * Properties *)

(** ** Strings *)

Section Strings.

Lemma append_empty_r (s : string) : s ++ "" = s.
Proof. induction s as [|c s IH]; simpl; [reflexivity | now rewrite IH]. Qed.

Lemma append_assoc (a b c : string) : (a ++ b) ++ c = a ++ b ++ c.
Proof. induction a as [|x a IH]; simpl; [reflexivity | now rewrite IH]. Qed.

Lemma length_append (a b : string) :
  String.length (a ++ b) = String.length a + String.length b.
Proof. induction a as [|x a IH]; simpl; [reflexivity | now rewrite IH]. Qed.

Lemma startsWith_app (p s : string) : startsWith p (p ++ s) = true.
Proof.
  induction p as [|c p IH]; simpl; [reflexivity|].
  now rewrite Ascii.eqb_refl, IH.
Qed.

Lemma startsWith_split (p s : string) :
  startsWith p s = true -> exists post, s = p ++ post.
Proof.
  revert s; induction p as [|c p IH]; intros s H.
  - now exists s.
  - destruct s as [|d s]; simpl in H; [discriminate|].
    apply andb_true_iff in H as [Hc Hp].
    apply Ascii.eqb_eq in Hc; subst d.
    destruct (IH _ Hp) as [post ->]. now exists post.
Qed.

Lemma includes_unfold (p s : string) :
  includes p s =
  startsWith p s || match s with EmptyString => false | String _ s' => includes p s' end.
Proof. destruct s; reflexivity. Qed.

Lemma includes_app (pre p post : string) : includes p (pre ++ p ++ post) = true.
Proof.
  induction pre as [|c pre IH]; simpl.
  - rewrite includes_unfold, startsWith_app. reflexivity.
  - rewrite IH. apply orb_true_r.
Qed.

(** [includes] finds exactly the occurrences of the word. *)
Lemma includes_split (p s : string) :
  includes p s = true <-> exists pre post, s = pre ++ p ++ post.
Proof.
  split.
  - induction s as [|c s IH]; simpl; intros H.
    + rewrite orb_false_r in H. apply startsWith_split in H as [post ->].
      now exists "", post.
    + apply orb_true_iff in H as [H|H].
      * apply startsWith_split in H as [post ->]. now exists "", post.
      * destruct (IH H) as (pre & post & ->). now exists (String c pre), post.
  - intros (pre & post & ->). apply includes_app.
Qed.

Lemma substring_skip (x y : string) (n m : nat) :
  substring (String.length x + n) m (x ++ y) = substring n m y.
Proof. induction x as [|c x IH]; simpl; [reflexivity | exact IH]. Qed.

Lemma substring_keep (x y : string) (n : nat) :
  substring 0 (String.length x + n) (x ++ y) = x ++ substring 0 n y.
Proof. induction x as [|c x IH]; simpl; [reflexivity | now rewrite IH]. Qed.

(** Whether a string ends with [p] is decided by any tail at least as long
    as [p]. *)
Lemma endsWith_app (p x y : string) :
  String.length p <= String.length y ->
  endsWith p (x ++ y) = endsWith p y.
Proof.
  intros H. unfold endsWith. rewrite length_append.
  replace (String.length x + String.length y - String.length p)
    with (String.length x + (String.length y - String.length p)) by lia.
  rewrite substring_skip.
  replace (String.length p <=? String.length x + String.length y)%nat with true
    by (symmetry; apply Nat.leb_le; lia).
  replace (String.length p <=? String.length y)%nat with true
    by (symmetry; apply Nat.leb_le; lia).
  reflexivity.
Qed.

Lemma sliceEnd_app (x y : string) (n : nat) :
  n <= String.length y ->
  sliceEnd (x ++ y) n = x ++ sliceEnd y n.
Proof.
  intros H. unfold sliceEnd. rewrite length_append.
  replace (String.length x + String.length y - n)
    with (String.length x + (String.length y - n)) by lia.
  apply substring_keep.
Qed.

Lemma trimStart_app (x y : string) :
  3 <= String.length y -> trimStart (x ++ y) = x ++ trimStart y.
Proof.
  intros H. unfold trimStart.
  rewrite endsWith_app by exact H.
  destruct (endsWith "<s>" y); [apply sliceEnd_app; exact H | reflexivity].
Qed.

Lemma concat_cons (b : string) (bs : list string) :
  String.concat "" (b :: bs) = b ++ String.concat "" bs.
Proof. destruct bs; simpl; [now rewrite append_empty_r | reflexivity]. Qed.

End Strings.

(** ** Messages of the declared interface *)

Section TypedMessages.

Lemma get_role (m : Message) : get (ofMessage m) "role" = Normal (VString (role m)).
Proof. reflexivity. Qed.

Lemma get_content (m : Message) : get (ofMessage m) "content" = Normal (VString (content m)).
Proof. reflexivity. Qed.

Lemma strictEq_string (s lit : string) : strictEq (VString s) lit = String.eqb s lit.
Proof. reflexivity. Qed.

(** A loop whose body appends a piece computed from the message alone
    yields the pieces in order after the initial prompt. *)
Lemma forEach_pieces (body : string -> value -> completion string)
    (piece : Message -> string) :
  (forall acc m, body acc (ofMessage m) = Normal (acc ++ piece m)) ->
  forall msgs acc,
    forEach (List.map ofMessage msgs) acc body
    = Normal (acc ++ String.concat "" (List.map piece msgs)).
Proof.
  intros Hbody msgs. induction msgs as [|m msgs IH]; intros acc.
  - simpl. now rewrite append_empty_r.
  - change (List.map ofMessage (m :: msgs)) with (ofMessage m :: List.map ofMessage msgs).
    change (List.map piece (m :: msgs)) with (piece m :: List.map piece msgs).
    simpl forEach. rewrite Hbody. simpl bind.
    rewrite IH, concat_cons, append_assoc. reflexivity.
Qed.

Lemma arrayMap_lines (f : value -> completion string) (line : Message -> string) :
  (forall m, f (ofMessage m) = Normal (line m)) ->
  forall msgs, arrayMap f (List.map ofMessage msgs) = Normal (List.map line msgs).
Proof.
  intros Hf msgs. induction msgs as [|m msgs IH]; [reflexivity|].
  change (List.map ofMessage (m :: msgs)) with (ofMessage m :: List.map ofMessage msgs).
  simpl arrayMap. rewrite Hf, IH. reflexivity.
Qed.

Ltac read_message :=
  rewrite ?get_role, ?get_content; unfold bind;
  rewrite ?strictEq_string; unfold toString.

Lemma llama2Turn_typed (acc : string) (m : Message) :
  llama2Turn acc (ofMessage m) = Normal (acc ++ llama2Piece m).
Proof.
  unfold llama2Turn, llama2Piece. read_message.
  destruct (String.eqb (role m) "user"); [reflexivity|].
  destruct (String.eqb (role m) "assistant"); [reflexivity|].
  now rewrite append_empty_r.
Qed.

Lemma formatLlama3_typed (msgs : list Message) :
  formatLlama3 (List.map ofMessage msgs) = Normal (llama3Spec msgs).
Proof.
  unfold formatLlama3, llama3Spec.
  rewrite (forEach_pieces _ llama3Block).
  - unfold bind. now rewrite append_assoc.
  - intros acc m. read_message. unfold llama3Block, collapse.
    destruct (String.eqb (role m) "assistant"); [reflexivity|].
    destruct (String.eqb (role m) "system"); reflexivity.
Qed.

Lemma formatMistral_typed (msgs : list Message) :
  formatMistral (List.map ofMessage msgs) = Normal (mistralSpec msgs).
Proof.
  unfold formatMistral, mistralSpec.
  apply (forEach_pieces _ mistralPiece).
  intros acc m. read_message. unfold mistralPiece.
  destruct (String.eqb (role m) "user"); [reflexivity|].
  destruct (String.eqb (role m) "assistant"); [reflexivity|].
  now rewrite append_empty_r.
Qed.

Lemma formatSimpleChat_typed (flag : bool) (msgs : list Message) :
  formatSimpleChat (List.map ofMessage msgs) flag = Normal (simpleChatSpec flag msgs).
Proof.
  unfold formatSimpleChat, simpleChatSpec.
  rewrite (arrayMap_lines _ (simpleChatSpecLine flag)); [reflexivity|].
  intros m. unfold simpleChatLine, simpleChatSpecLine. read_message.
  destruct (negb flag && String.eqb (role m) "system"); reflexivity.
Qed.

End TypedMessages.

(** ** The family dispatch *)

Section Dispatch.

(** [formatPromptForModel] is the first-match classification followed by
    the formatter of the family. *)
Lemma dispatch (msgs : list value) (id : string) :
  formatPromptForModel msgs (VString id)
  = render (classify id) (systemSupported id) msgs.
Proof.
  unfold formatPromptForModel, classify, systemSupported, callToLowerCase, bind.
  generalize (toLowerCase id) as l. intros l.
  cbn [rules firstMatch matches existsb].
  rewrite !orb_false_r.
  destruct (includes "llama3.1" l); [reflexivity|].
  destruct (includes "llama-4" l); [reflexivity|].
  destruct (includes "llama3" l); [reflexivity|].
  destruct (includes "llama-3.3" l); [reflexivity|].
  destruct (includes "llama2" l); [reflexivity|].
  destruct (includes "codellama" l); [reflexivity|].
  destruct (includes "mistral" l); [reflexivity|].
  destruct (includes "nemo" l); [reflexivity|].
  destruct (includes "codestral" l); [reflexivity|].
  destruct (includes "anthropic" l); [reflexivity|].
  destruct (includes "claude" l); [reflexivity|].
  destruct (includes "grok" l); [reflexivity|].
  destruct (includes "deepseek" l); [reflexivity|].
  destruct (includes "openai" l); [reflexivity|].
  destruct (includes "google" l); [reflexivity|].
  destruct (includes "gemini" l); reflexivity.
Qed.

(** The prompt is determined by the matched word alone. *)
Lemma prompt_matchedWord (msgs : list value) (id : string) :
  formatPromptForModel msgs (VString id)
  = match matchedWord id with
    | Some w => render (wordFamily w) (String.eqb w "openai") msgs
    | None => formatDefault msgs
    end.
Proof.
  unfold formatPromptForModel, matchedWord, callToLowerCase, bind.
  generalize (toLowerCase id) as l. intros l.
  cbn [words rules flat_map fst app find].
  destruct (includes "llama3.1" l); [reflexivity|].
  destruct (includes "llama-4" l); [reflexivity|].
  destruct (includes "llama3" l); [reflexivity|].
  destruct (includes "llama-3.3" l); [reflexivity|].
  destruct (includes "llama2" l); [reflexivity|].
  destruct (includes "codellama" l); [reflexivity|].
  destruct (includes "mistral" l); [reflexivity|].
  destruct (includes "nemo" l); [reflexivity|].
  destruct (includes "codestral" l); [reflexivity|].
  destruct (includes "anthropic" l); [reflexivity|].
  destruct (includes "claude" l); [reflexivity|].
  destruct (includes "grok" l); [reflexivity|].
  destruct (includes "deepseek" l); [reflexivity|].
  destruct (includes "openai" l); [reflexivity|].
  destruct (includes "google" l); [reflexivity|].
  destruct (includes "gemini" l); reflexivity.
Qed.

Lemma classify_matchedWord (id : string) :
  classify id = match matchedWord id with
                | Some w => wordFamily w
                | None => Default
                end.
Proof.
  unfold classify, matchedWord.
  generalize (toLowerCase id) as l. intros l.
  cbn [words rules flat_map fst app find firstMatch matches existsb].
  rewrite !orb_false_r.
  destruct (includes "llama3.1" l); [reflexivity|].
  destruct (includes "llama-4" l); [reflexivity|].
  destruct (includes "llama3" l); [reflexivity|].
  destruct (includes "llama-3.3" l); [reflexivity|].
  destruct (includes "llama2" l); [reflexivity|].
  destruct (includes "codellama" l); [reflexivity|].
  destruct (includes "mistral" l); [reflexivity|].
  destruct (includes "nemo" l); [reflexivity|].
  destruct (includes "codestral" l); [reflexivity|].
  destruct (includes "anthropic" l); [reflexivity|].
  destruct (includes "claude" l); [reflexivity|].
  destruct (includes "grok" l); [reflexivity|].
  destruct (includes "deepseek" l); [reflexivity|].
  destruct (includes "openai" l); [reflexivity|].
  destruct (includes "google" l); [reflexivity|].
  destruct (includes "gemini" l); reflexivity.
Qed.

Lemma matches_word (lower w : string) (words : list string) :
  In w words -> includes w lower = true -> matches lower words = true.
Proof.
  intros Hin Hw. unfold matches. apply existsb_exists. now exists w.
Qed.

(** A rule that matches is the one selected when no rule before it
    matches. *)
Lemma firstMatch_at (lower : string) (rs : list (list string * Family)) :
  forall n words fam,
    nth_error rs n = Some (words, fam) ->
    matches lower words = true ->
    existsb (fun r => matches lower (fst r)) (firstn n rs) = false ->
    firstMatch lower rs = fam.
Proof.
  induction rs as [|[ws f] rs IH]; intros n words fam Hn Hm He.
  - destruct n; discriminate.
  - destruct n as [|n]; simpl in *.
    + injection Hn as -> ->. now rewrite Hm.
    + apply orb_false_iff in He as [Hws He]. rewrite Hws. eapply IH; eauto.
Qed.

(** C4. The family is selected by a case-insensitive search of the
    identifier for the words of the rules in their priority order, the
    first rule that matches winning: [formatPromptForModel] is [classify]
    followed by the formatter of the family.  Identifiers with the same
    lower case get the same family; identifiers with the same matched word,
    whatever their case and whatever surrounds the word, get the same
    family and the same prompt; a word of a rule that occurs in the
    lower-cased identifier selects the family of its rule when no earlier
    rule matches; and the four identifiers of the specification classify
    as it says. *)
Theorem family_classification :
  (forall msgs id,
      formatPromptForModel msgs (VString id)
      = render (classify id) (systemSupported id) msgs)
  /\ (forall a b, toLowerCase a = toLowerCase b -> classify a = classify b)
  /\ (forall a b,
        matchedWord a = matchedWord b ->
        classify a = classify b
        /\ forall msgs,
             formatPromptForModel msgs (VString a) = formatPromptForModel msgs (VString b))
  /\ (forall n words fam w id pre post,
        nth_error rules n = Some (words, fam) ->
        In w words ->
        toLowerCase id = pre ++ w ++ post ->
        noEarlier n (toLowerCase id) = true ->
        classify id = fam)
  /\ classify "Meta-Llama3.1-70B" = classify "llama3.1-instruct"
  /\ classify "llama2" = classify "codellama-13b".
Proof.
  split; [exact dispatch|].
  split; [intros a b H; unfold classify; now rewrite H|].
  split.
  { intros a b H. split.
    - now rewrite !classify_matchedWord, H.
    - intros msgs. now rewrite !prompt_matchedWord, H. }
  split; [|split; reflexivity].
  intros n words fam w id pre post Hn Hin Hlow Hno.
  unfold classify. apply (firstMatch_at _ rules n words fam Hn).
  - apply (matches_word _ w); [exact Hin|]. rewrite Hlow. apply includes_app.
  - unfold noEarlier in Hno. now apply negb_true_iff in Hno.
Qed.

Lemma family_classification_witness :
  classify "GROK-2" = classify "grok-2"
  /\ classify "xAI-Grok-2" = classify "grok-beta"
  /\ classify "xAI-Grok-2" = Grok.
Proof.
  destruct family_classification as (_ & Hcase & Hmatched & Hword & _).
  split; [|split].
  - apply Hcase. reflexivity.
  - apply Hmatched. reflexivity.
  - apply (Hword 5 ["grok"] Grok "grok" "xAI-Grok-2" "xai-" "-2").
    + reflexivity.
    + simpl; auto.
    + reflexivity.
    + reflexivity.
Defined.

End Dispatch.

(** ** The Llama2 grammar *)

Section Llama2.

Lemma forEach_invariant (P : string -> Prop)
    (body : string -> value -> completion string) :
  (forall acc msg acc', P acc -> body acc msg = Normal acc' -> P acc') ->
  forall msgs acc out, P acc -> forEach msgs acc body = Normal out -> P out.
Proof.
  intros Hstep msgs. induction msgs as [|msg msgs IH]; intros acc out Hacc Hrun.
  - injection Hrun as <-. exact Hacc.
  - simpl in Hrun. destruct (body acc msg) as [acc'|e] eqn:Hbody; [|discriminate].
    simpl in Hrun. eapply IH; [|exact Hrun]. eapply Hstep; eauto.
Qed.

Lemma llama2Turn_end (acc : string) (msg : value) (acc' : string) :
  llama2End acc -> llama2Turn acc msg = Normal acc' -> llama2End acc'.
Proof.
  intros Hacc. unfold llama2Turn.
  destruct (get msg "role") as [r|e]; [|discriminate]. simpl bind.
  destruct (strictEq r "user").
  - destruct (get msg "content") as [c|e]; [|discriminate]. simpl bind.
    destruct (toString c) as [text|e]; [|discriminate]. simpl bind.
    intros H; injection H as <-.
    right; right; left. exists (acc ++ "[INST] " ++ text ++ " ").
    rewrite !append_assoc. reflexivity.
  - destruct (strictEq r "assistant").
    + destruct (get msg "content") as [c|e]; [|discriminate]. simpl bind.
      destruct (toString c) as [text|e]; [|discriminate]. simpl bind.
      intros H; injection H as <-.
      right; right; right. exists (acc ++ " " ++ text ++ " ").
      rewrite !append_assoc. reflexivity.
    + intros H; injection H as <-. exact Hacc.
Qed.

Lemma trimStart_end (s : string) : llama2End s -> endsWith "<s>" (trimStart s) = false.
Proof.
  intros [->|[[x ->]|[[x ->]|[x ->]]]].
  - reflexivity.
  - unfold trimStart. rewrite endsWith_app by (simpl; lia).
    change (endsWith "<s>" (">>" ++ LF ++ LF)) with false. cbv iota.
    now rewrite endsWith_app by (simpl; lia).
  - unfold trimStart. rewrite endsWith_app by (simpl; lia).
    change (endsWith "<s>" "[/INST]") with false. cbv iota.
    now rewrite endsWith_app by (simpl; lia).
  - unfold trimStart. rewrite endsWith_app by (simpl; lia).
    change (endsWith "<s>" "</s><s>") with true. cbv iota.
    rewrite sliceEnd_app by (simpl; lia).
    now rewrite endsWith_app by (simpl; lia).
Qed.

(** Whatever the messages are, an output of [formatLlama2] does not end
    with the sequence-start marker. *)
Lemma formatLlama2_no_dangling (msgs : list value) (out : string) :
  formatLlama2 msgs = Normal out -> endsWith "<s>" out = false.
Proof.
  unfold formatLlama2.
  destruct (optGet (first msgs) "role") as [r0|e]; [|discriminate]. simpl bind.
  destruct (strictEq r0 "system").
  - destruct (get (first msgs) "content") as [c|e]; [|discriminate]. simpl bind.
    destruct (toString c) as [text|e]; [|discriminate]. simpl bind.
    match goal with
    | |- context [forEach ?l ?p llama2Turn] =>
        destruct (forEach l p llama2Turn) as [prompt|e] eqn:Hloop; [|discriminate]
    end.
    simpl bind. intros H; injection H as <-.
    apply trimStart_end.
    eapply (forEach_invariant llama2End); [exact llama2Turn_end| |exact Hloop].
    right; left. exists ("<s>[INST] <<SYS>>" ++ LF ++ text ++ LF ++ "<</SYS").
    rewrite !append_assoc. reflexivity.
  - simpl bind.
    match goal with
    | |- context [forEach ?l ?p llama2Turn] =>
        destruct (forEach l p llama2Turn) as [prompt|e] eqn:Hloop; [|discriminate]
    end.
    simpl bind. intros H; injection H as <-.
    apply trimStart_end.
    eapply (forEach_invariant llama2End); [exact llama2Turn_end| |exact Hloop].
    now left.
Qed.

End Llama2.

Section Llama2Typed.

Lemma llama2Turns_length (rest : list Message) :
  llama2Turns rest = "" \/ 3 <= String.length (llama2Turns rest).
Proof.
  unfold llama2Turns. induction rest as [|m rest IH]; [now left|].
  change (List.map llama2Piece (m :: rest)) with (llama2Piece m :: List.map llama2Piece rest).
  rewrite concat_cons. unfold llama2Piece at 1 3.
  destruct (String.eqb (role m) "user").
  - right. rewrite !length_append. simpl. lia.
  - destruct (String.eqb (role m) "assistant").
    + right. rewrite !length_append. simpl. lia.
    + exact IH.
Qed.

Lemma systemBlock_end (c : string) :
  "<s>" ++ systemBlock c
  = ("<s>[INST] <<SYS>>" ++ LF ++ c ++ LF ++ "<</SYS") ++ ">>" ++ LF ++ LF.
Proof. unfold systemBlock. rewrite !append_assoc. reflexivity. Qed.

Lemma formatLlama2_system (c : string) (rest : list Message) :
  formatLlama2 (List.map ofMessage (system c :: rest))
  = Normal ("<s>" ++ systemBlock c ++ trimStart (llama2Turns rest)).
Proof.
  unfold formatLlama2.
  change (List.map ofMessage (system c :: rest))
    with (ofMessage (system c) :: List.map ofMessage rest).
  change (optGet (first (ofMessage (system c) :: List.map ofMessage rest)) "role")
    with (Normal (VString "system")).
  change (get (first (ofMessage (system c) :: List.map ofMessage rest)) "content")
    with (Normal (VString c)).
  unfold bind, toString. cbv iota beta.
  change (strictEq (VString "system") "system") with true. cbv iota beta.
  change (skipn 1 (ofMessage (system c) :: List.map ofMessage rest))
    with (List.map ofMessage rest).
  rewrite (forEach_pieces _ llama2Piece llama2Turn_typed).
  fold (llama2Turns rest). fold (trimStart (("<s>" ++ "[INST] <<SYS>>" ++ LF ++ c ++ LF ++ "<</SYS>>" ++ LF ++ LF) ++ llama2Turns rest)).
  f_equal.
  destruct (llama2Turns_length rest) as [-> | Hlen].
  - rewrite append_empty_r.
    change ("<s>" ++ "[INST] <<SYS>>" ++ LF ++ c ++ LF ++ "<</SYS>>" ++ LF ++ LF)
      with ("<s>" ++ systemBlock c).
    change (trimStart "") with "". rewrite append_empty_r.
    rewrite systemBlock_end. unfold trimStart.
    rewrite endsWith_app by (simpl; lia). reflexivity.
  - rewrite trimStart_app by exact Hlen. unfold systemBlock. reflexivity.
Qed.

Lemma llama2Turns_system (contents : list string) :
  llama2Turns (List.map system contents) = "".
Proof.
  unfold llama2Turns. induction contents as [|c cs IH]; [reflexivity|].
  change (List.map llama2Piece (List.map system (c :: cs)))
    with (llama2Piece (system c) :: List.map llama2Piece (List.map system cs)).
  rewrite concat_cons, IH. reflexivity.
Qed.

(** C5.  With a leading system message of content [c] the output of
    [formatLlama2] is the sequence-start marker, the system block of [c],
    and the rendering of the remaining messages alone with a trailing marker
    removed.  So the leading message is rendered once, in the system block;
    it is not rendered as an instruction [[INST] content [/INST]], which is
    what a user message gets, and a system message among the remaining ones
    contributes nothing: a sequence of system messages alone gives the marker
    and the one system block.  For every message sequence the formatter
    returns, and its output does not end with the sequence-start marker. *)
Theorem llama2_rendering :
  (forall c rest,
      formatLlama2 (List.map ofMessage (system c :: rest))
      = Normal ("<s>" ++ systemBlock c ++ trimStart (llama2Turns rest)))
  /\ (forall c, systemBlock c = "[INST] <<SYS>>" ++ LF ++ c ++ LF ++ "<</SYS>>" ++ LF ++ LF)
  /\ (forall c, llama2Piece (system c) = "")
  /\ (forall c, llama2Piece {| role := "user"; content := c |} = "[INST] " ++ c ++ " [/INST]")
  /\ (forall c contents,
        formatLlama2 (List.map ofMessage (system c :: List.map system contents))
        = Normal ("<s>[INST] <<SYS>>" ++ LF ++ c ++ LF ++ "<</SYS>>" ++ LF ++ LF))
  /\ (forall msgs : list Message,
        exists out, formatLlama2 (List.map ofMessage msgs) = Normal out
                    /\ endsWith "<s>" out = false).
Proof.
  split; [exact formatLlama2_system|].
  split; [reflexivity|].
  split; [reflexivity|].
  split; [reflexivity|].
  split.
  { intros c contents. rewrite formatLlama2_system, llama2Turns_system.
    change (trimStart "") with "". unfold systemBlock.
    now rewrite !append_assoc, append_empty_r. }
  intros msgs.
  assert (exists out, formatLlama2 (List.map ofMessage msgs) = Normal out) as [out Hout].
  { destruct msgs as [|m rest]; [now exists ""|].
    destruct (String.eqb (role m) "system") eqn:Hrole.
    - apply String.eqb_eq in Hrole. destruct m as [r c]; simpl in Hrole; subst r.
      eexists. apply (formatLlama2_system c rest).
    - exists (trimStart ("<s>" ++ llama2Turns (m :: rest))).
      unfold formatLlama2.
      change (List.map ofMessage (m :: rest)) with (ofMessage m :: List.map ofMessage rest).
      change (optGet (first (ofMessage m :: List.map ofMessage rest)) "role")
        with (Normal (VString (role m))).
      unfold bind at 1. rewrite strictEq_string, Hrole.
      unfold bind at 1.
      change (skipn 0 (ofMessage m :: List.map ofMessage rest))
        with (List.map ofMessage (m :: rest)).
      rewrite (forEach_pieces _ llama2Piece llama2Turn_typed). reflexivity. }
  exists out. split; [exact Hout|]. exact (formatLlama2_no_dangling _ _ Hout).
Qed.

End Llama2Typed.

(** ** The Llama3, Mistral and SimpleChat grammars *)

Section Grammars.

(** C6. The output of [formatLlama3] is the begin-of-text marker, then for
    each message in order a header block tagged with the collapsed role
    around the content and closed by the end-of-turn marker, then the open
    assistant header; a role is collapsed to itself when it is [assistant]
    or [system] and to [user] otherwise. *)
Theorem llama3_rendering :
  (forall msgs : list Message,
      formatLlama3 (List.map ofMessage msgs)
      = Normal ("<|begin_of_text|>"
                  ++ String.concat "" (List.map llama3Block msgs)
                  ++ "<|start_header_id|>assistant<|end_header_id|>" ++ LF ++ LF))
  /\ (forall m,
        llama3Block m
        = "<|start_header_id|>"
            ++ (if String.eqb (role m) "assistant" || String.eqb (role m) "system"
                then role m else "user")
            ++ "<|end_header_id|>" ++ LF ++ LF ++ content m ++ "<|eot_id|>").
Proof.
  split; [exact formatLlama3_typed|].
  intros m. unfold llama3Block, collapse.
  destruct (String.eqb_spec (role m) "assistant") as [->|_]; [reflexivity|].
  destruct (String.eqb_spec (role m) "system") as [->|_]; reflexivity.
Qed.

Lemma mistral_system_pieces (contents : list string) :
  String.concat "" (List.map mistralPiece (List.map system contents)) = "".
Proof.
  induction contents as [|c cs IH]; [reflexivity|].
  change (List.map mistralPiece (List.map system (c :: cs)))
    with (mistralPiece (system c) :: List.map mistralPiece (List.map system cs)).
  rewrite concat_cons, IH. reflexivity.
Qed.

(** C7. The output of [formatMistral] is the sequence-start marker followed
    by what each message contributes in order: the content in instruction
    brackets for a user message, the content and a sequence-end marker for
    an assistant message, nothing for a system message; a sequence of system
    messages alone yields exactly the sequence-start marker. *)
Theorem mistral_rendering :
  (forall msgs : list Message,
      formatMistral (List.map ofMessage msgs)
      = Normal ("<s>" ++ String.concat "" (List.map mistralPiece msgs)))
  /\ (forall c, mistralPiece {| role := "user"; content := c |} = "[INST] " ++ c ++ " [/INST]")
  /\ (forall c, mistralPiece {| role := "assistant"; content := c |} = c ++ "</s>")
  /\ (forall c, mistralPiece (system c) = "")
  /\ (forall contents : list string,
        formatMistral (List.map ofMessage (List.map system contents)) = Normal "<s>").
Proof.
  split; [exact formatMistral_typed|].
  repeat (split; [reflexivity|]).
  intros contents. rewrite formatMistral_typed. unfold mistralSpec.
  now rewrite mistral_system_pieces.
Qed.

(** C8. For an identifier of the SimpleChat family the formatter is
    [formatSimpleChat] with the flag that tells whether the lower-cased
    identifier holds [openai]; the prompt is the lines of the messages
    joined by blank lines, a line being [(System Instruction: content)] for
    a system message when the flag is false and [role: content]
    otherwise. *)
Theorem simpleChat_rendering (id : string) :
  classify id = SimpleChat ->
  (forall msgs : list value,
      formatPromptForModel msgs (VString id)
      = formatSimpleChat msgs (includes "openai" (toLowerCase id)))
  /\ (forall msgs : list Message,
        formatPromptForModel (List.map ofMessage msgs) (VString id)
        = Normal (join (LF ++ LF)
                    (List.map (fun m =>
                       if negb (includes "openai" (toLowerCase id))
                          && String.eqb (role m) "system"
                       then "(System Instruction: " ++ content m ++ ")"
                       else role m ++ ": " ++ content m) msgs))).
Proof.
  intros Hfam.
  assert (forall msgs, formatPromptForModel msgs (VString id)
                       = formatSimpleChat msgs (includes "openai" (toLowerCase id))) as Hd.
  { intros msgs. rewrite dispatch, Hfam. reflexivity. }
  split; [exact Hd|].
  intros msgs. rewrite Hd, formatSimpleChat_typed. reflexivity.
Qed.

Lemma simpleChat_rendering_witness :
  formatPromptForModel
    (List.map ofMessage [system "Be brief."; {| role := "user"; content := "hi" |}])
    (VString "Google_Gemini")
  = Normal ("(System Instruction: Be brief.)" ++ LF ++ LF ++ "user: hi").
Proof.
  destruct (simpleChat_rendering "Google_Gemini" eq_refl) as [_ H].
  rewrite H. reflexivity.
Defined.

End Grammars.

(** ** The handler *)

Section Handler.

Variable ai : Capability.

Lemma ioBind_pure {A B} (a : A) (k : A -> io B) : ioBind (pure (Normal a)) k = k a.
Proof. unfold ioBind, pure. destruct (k a). reflexivity. Qed.

(** A request object answers every read of a property. *)
Lemma get_total (req : value) (key key' : string) (v : value) :
  get req key = Normal v -> get req key' = Normal (field key' req).
Proof.
  unfold field. destruct req; simpl; intros H; try discriminate; reflexivity.
Qed.

(** Up to the inference call: an accepted request goes on to [AI.ask] with
    its prompt and identifier and to the delivery of the answer. *)
Lemma tryBlock_accepted (req model : value) (prompt : string) (streamMode : bool) :
  accepted req model prompt streamMode ->
  tryBlock ai (Normal req)
  = (answer <~ callAsk ai prompt model ;; deliver model streamMode answer).
Proof.
  intros (m & msgs & s & Hm & -> & Hmsgs & Hfmt & Hne & Hs & ->).
  unfold tryBlock.
  rewrite ioBind_pure, Hm, ioBind_pure, Hmsgs, ioBind_pure.
  cbn [truthy isArray negb orb elements].
  rewrite Hfmt, ioBind_pure, (proj2 (String.eqb_neq _ _) Hne). cbn [negb].
  rewrite Hs, ioBind_pure. reflexivity.
Qed.

Lemma deliver_stream (model : value) (answer : Answer) :
  deliver model true answer
  = ((WriteHead 200 sseHeaders
       :: List.map (fun f => Write (frame (deltaChunk model (fragTime f) (fragData f))))
                   (fragments answer)
       ++ match settlement answer with
          | Resolves now _ => [Write (frame (finalChunk model now)); Write doneFrame; End None]
          | Rejects message => [Write (frame (errorBody message)); End None]
          end)%list,
     Normal tt).
Proof.
  unfold deliver. destruct (settlement answer); reflexivity.
Qed.

Lemma deliver_batch (model : value) (answer : Answer) :
  deliver model false answer
  = match settlement answer with
    | Resolves now result =>
        ([WriteHead 200 jsonHeaders;
          End (Some (Json.stringify (responseBody model now result)))], Normal tt)
    | Rejects message => ([], Throw message)
    end.
Proof.
  unfold deliver. destruct (settlement answer); reflexivity.
Qed.

(** The whole trace of an accepted request whose inference call returns. *)
Lemma onEnd_accepted (req model : value) (prompt : string) (streamMode : bool)
    (answer : Answer) :
  accepted req model prompt streamMode ->
  ai prompt model = Normal answer ->
  onEnd ai (Normal req)
  = Ask prompt model ::
    if streamMode then
      (WriteHead 200 sseHeaders
       :: List.map (fun f => Write (frame (deltaChunk model (fragTime f) (fragData f))))
                   (fragments answer)
       ++ match settlement answer with
          | Resolves now _ => [Write (frame (finalChunk model now)); Write doneFrame; End None]
          | Rejects message => [Write (frame (errorBody message)); End None]
          end)%list
    else
      match settlement answer with
      | Resolves now result =>
          [WriteHead 200 jsonHeaders;
           End (Some (Json.stringify (responseBody model now result)))]
      | Rejects message =>
          [WriteHead 500 jsonHeaders; End (Some (Json.stringify (errorBody message)))]
      end.
Proof.
  intros Hacc Hai. unfold onEnd.
  rewrite (tryBlock_accepted _ _ _ _ Hacc).
  unfold callAsk, ioBind. rewrite Hai.
  destruct streamMode.
  - rewrite deliver_stream. reflexivity.
  - rewrite deliver_batch. destruct (settlement answer); reflexivity.
Qed.

Lemma written_app (t u : list Effect) : written (t ++ u) = (written t ++ written u)%list.
Proof. unfold written. apply flat_map_app. Qed.

Lemma asks_app (t u : list Effect) : asks (t ++ u) = (asks t ++ asks u)%list.
Proof. unfold asks. apply flat_map_app. Qed.

Lemma written_writes {A} (chunk : A -> string) (l : list A) :
  written (List.map (fun x => Write (chunk x)) l) = List.map chunk l.
Proof. induction l as [|x l IH]; simpl; [reflexivity | now rewrite IH]. Qed.

Lemma asks_writes {A} (chunk : A -> string) (l : list A) :
  asks (List.map (fun x => Write (chunk x)) l) = [].
Proof. induction l as [|x l IH]; simpl; [reflexivity | exact IH]. Qed.

(** An accepted request makes exactly one inference call, with its prompt
    and identifier, whatever the capability does. *)
Lemma asks_accepted (req model : value) (prompt : string) (streamMode : bool) :
  accepted req model prompt streamMode ->
  asks (onEnd ai (Normal req)) = [(prompt, model)].
Proof.
  intros Hacc. destruct (ai prompt model) as [answer|message] eqn:Hai.
  - rewrite (onEnd_accepted _ _ _ _ _ Hacc Hai).
    destruct streamMode.
    + change (asks (Ask prompt model :: ?t)) with ((prompt, model) :: asks t).
      f_equal. change (asks (WriteHead 200 sseHeaders :: ?t)) with (asks t).
      rewrite asks_app, asks_writes. destruct (settlement answer); reflexivity.
    + destruct (settlement answer); reflexivity.
  - unfold onEnd. rewrite (tryBlock_accepted _ _ _ _ Hacc).
    unfold callAsk, ioBind. rewrite Hai. reflexivity.
Qed.

Lemma render_empty (fam : Family) (flag : bool) :
  emptyOnEmpty fam = true -> render fam flag [] = Normal "".
Proof. destruct fam; intros H; try discriminate H; reflexivity. Qed.

Lemma render_nonempty (fam : Family) (flag : bool) :
  emptyOnEmpty fam = false -> exists prompt, render fam flag [] = Normal prompt /\ prompt <> "".
Proof.
  destruct fam; intros H; try discriminate H;
    (eexists; split; [reflexivity | discriminate]).
Qed.

Lemma onEnd_not_array (req msgs : value) :
  get req "messages" = Normal msgs ->
  isArray msgs = false ->
  answered 400 "Missing or invalid 'messages' in request body" (onEnd ai (Normal req)).
Proof.
  intros Hmsgs Harr. unfold answered, onEnd, tryBlock.
  rewrite ioBind_pure, (get_total _ _ "model" _ Hmsgs), ioBind_pure, Hmsgs, ioBind_pure.
  rewrite Harr. cbn [negb]. rewrite orb_true_r. reflexivity.
Qed.

Lemma onEnd_empty_prompt (req : value) (msgs : list value) :
  get req "messages" = Normal (VArray msgs) ->
  formatPromptForModel msgs (orDefault (field "model" req)) = Normal "" ->
  answered 400 "Missing 'content' in the last message" (onEnd ai (Normal req)).
Proof.
  intros Hmsgs Hfmt. unfold answered, onEnd, tryBlock.
  rewrite ioBind_pure, (get_total _ _ "model" _ Hmsgs), ioBind_pure, Hmsgs, ioBind_pure.
  cbn [truthy isArray negb orb elements].
  rewrite Hfmt, ioBind_pure. reflexivity.
Qed.

Lemma sample_accepted (stream : bool) :
  accepted (sampleRequest stream) (VString "OpenAI_GPT4o-mini") "user: hi" stream.
Proof.
  exists VUndefined, [ofMessage {| role := "user" ; content := "hi" |}], (VBool stream).
  repeat split; try reflexivity; try discriminate.
  now destruct stream.
Qed.

End Handler.

(** ** Failures before inference *)

(** C1, as it is worded, fails: a body that does not parse is answered 500
    by the [catch], not 400. *)
Lemma rejection_claim_counterexample :
  ~ rejectionClaim sampleAI (Throw "Unexpected end of JSON input").
Proof.
  intros H. destruct H as [message Hans].
  - left. now eexists.
  - discriminate Hans.
Qed.

(** C1, amended.  A body that does not parse, and the body [null], are
    answered 500 with the message of the error thrown; a parsed body whose
    [messages] is absent or not an array is answered 400; a parsed body for
    whose messages the formatter returns the empty prompt is answered 400.
    Each of these answers is one JSON error body and comes without an
    inference call. *)
Theorem errors_before_inference (ai : Capability) :
  (forall message, answered 500 message (onEnd ai (Throw message)))
  /\ answered 500 "Cannot read properties of null (reading 'model')" (onEnd ai (Normal VNull))
  /\ (forall req msgs,
        get req "messages" = Normal msgs ->
        isArray msgs = false ->
        answered 400 "Missing or invalid 'messages' in request body" (onEnd ai (Normal req)))
  /\ (forall req msgs,
        get req "messages" = Normal (VArray msgs) ->
        formatPromptForModel msgs (orDefault (field "model" req)) = Normal "" ->
        answered 400 "Missing 'content' in the last message" (onEnd ai (Normal req)))
  /\ (forall status message t,
        answered status message t ->
        statuses t = [status] /\ asks t = []
        /\ written t = [Json.stringify (errorBody message)]).
Proof.
  split; [reflexivity|]. split; [reflexivity|].
  split; [exact (onEnd_not_array ai)|].
  split; [exact (onEnd_empty_prompt ai)|].
  intros status message t ->. repeat split.
Qed.

Lemma errors_before_inference_witness :
  answered 400 "Missing or invalid 'messages' in request body"
    (onEnd sampleAI (Normal (VObject [("messages", VString "hi")])))
  /\ answered 400 "Missing 'content' in the last message"
       (onEnd sampleAI (Normal (VObject [("messages", VArray [])])))
  /\ asks (onEnd sampleAI (Normal (VObject [("messages", VArray [])]))) = [].
Proof.
  destruct (errors_before_inference sampleAI) as (_ & _ & Hmissing & Hempty & Hobs).
  assert (answered 400 "Missing 'content' in the last message"
            (onEnd sampleAI (Normal (VObject [("messages", VArray [])])))) as H.
  { apply (Hempty _ []); reflexivity. }
  split; [|split].
  - apply (Hmissing _ (VString "hi")); reflexivity.
  - exact H.
  - exact (proj1 (proj2 (Hobs _ _ _ H))).
Defined.

(** C2, as it is worded, fails: with a Llama3 identifier the empty sequence
    is formatted and its prompt is sent to the capability. *)
Lemma empty_messages_claim_counterexample :
  ~ emptyMessagesClaim sampleAI emptyLlama3Request.
Proof.
  intros H. destruct (H eq_refl) as [Hstatus _]. discriminate Hstatus.
Qed.

(** C2, amended.  A request whose [messages] is the empty sequence passes
    validation and the sequence is formatted.  When the family of the
    identifier renders the empty sequence as the empty prompt (Llama2,
    SimpleChat, Default) the request is answered 400 and no inference call
    is made; for the other families the handler sends the rendered prompt
    to the capability. *)
Theorem empty_messages_are_formatted (ai : Capability) (req : value) (id : string) :
  get req "messages" = Normal (VArray []) ->
  orDefault (field "model" req) = VString id ->
  (emptyOnEmpty (classify id) = true ->
     formatPromptForModel [] (VString id) = Normal ""
     /\ answered 400 "Missing 'content' in the last message" (onEnd ai (Normal req)))
  /\ (emptyOnEmpty (classify id) = false ->
       exists prompt,
         formatPromptForModel [] (VString id) = Normal prompt /\ prompt <> ""
         /\ asks (onEnd ai (Normal req)) = [(prompt, VString id)]).
Proof.
  intros Hmsgs Hmodel. split; intros Hfam.
  - assert (formatPromptForModel [] (VString id) = Normal "") as Hfmt
      by (rewrite dispatch; now apply render_empty).
    split; [exact Hfmt|].
    apply (onEnd_empty_prompt ai req []); [exact Hmsgs | now rewrite Hmodel].
  - destruct (render_nonempty _ (systemSupported id) Hfam) as (prompt & Hfmt & Hne).
    rewrite <- dispatch in Hfmt.
    exists prompt. split; [exact Hfmt|]. split; [exact Hne|].
    apply (asks_accepted ai req (VString id) prompt (isTrue (field "stream" req))).
    exists (field "model" req), [], (field "stream" req).
    split; [exact (get_total _ _ _ _ Hmsgs)|].
    split; [now rewrite Hmodel|].
    split; [exact Hmsgs|].
    split; [exact Hfmt|].
    split; [exact Hne|].
    split; [exact (get_total _ _ _ _ Hmsgs) | reflexivity].
Qed.

Lemma empty_messages_are_formatted_witness :
  answered 400 "Missing 'content' in the last message"
    (onEnd sampleAI (Normal (VObject [("messages", VArray [])])))
  /\ asks (onEnd sampleAI (Normal emptyLlama3Request))
     = [("<|begin_of_text|><|start_header_id|>assistant<|end_header_id|>" ++ LF ++ LF,
         VString "llama3")].
Proof.
  split.
  - apply (empty_messages_are_formatted sampleAI
             (VObject [("messages", VArray [])]) "OpenAI_GPT4o-mini");
      reflexivity.
  - destruct (empty_messages_are_formatted sampleAI emptyLlama3Request "llama3"
                eq_refl eq_refl) as [_ H].
    destruct (H eq_refl) as (prompt & Hfmt & _ & Hasks).
    rewrite Hasks. injection Hfmt as <-. reflexivity.
Defined.

(** ** The response envelopes *)

Section WireText.

Lemma accepted_model_string (req model : value) (prompt : string) (streamMode : bool) :
  accepted req model prompt streamMode -> exists id, model = VString id.
Proof.
  intros (m & msgs & s & _ & _ & _ & Hfmt & _).
  destruct model; try discriminate Hfmt. now eexists.
Qed.

Lemma decimal_not_word (d : Decimal.int) :
  String.eqb (NilZero.string_of_int d) "NaN"
  || String.eqb (NilZero.string_of_int d) "Infinity"
  || String.eqb (NilZero.string_of_int d) "-Infinity" = false.
Proof.
  destruct d as [u|u]; destruct u; try reflexivity;
    simpl; destruct u; reflexivity.
Qed.

Lemma serialize_ofZ (z : Z) :
  Json.serialize (Json.ofZ z) = Some (NilZero.string_of_int (Z.to_int z)).
Proof.
  unfold Json.ofZ. cbn [Json.serialize]. now rewrite decimal_not_word.
Qed.

Ltac wire_text :=
  unfold frame, Json.stringify, deltaChunk, finalChunk, responseBody, errorBody, created;
  repeat (cbn [Json.serialize String.concat List.map String.eqb Ascii.eqb Bool.eqb orb];
          rewrite ?serialize_ofZ);
  unfold deltaFrameText, finalFrameText, responseText, errorFrameText, secondsText, join;
  cbn [String.concat List.map];
  repeat match goal with
         | |- context [Json.quote ?x] =>
             lazymatch x with
             | String _ _ => fail
             | EmptyString => fail
             | _ => generalize (Json.quote x); intro
             end
         end;
  try match goal with
      | |- context [NilZero.string_of_int ?d] => generalize (NilZero.string_of_int d); intro
      end;
  rewrite !append_assoc; reflexivity.

(** The bytes of a delta frame. *)
Lemma frame_deltaChunk (id : string) (now : Z) (data : string) :
  frame (deltaChunk (VString id) now data)
  = deltaFrameText (Json.quote id) (secondsText now) (Json.quote data).
Proof. wire_text. Qed.

(** The bytes of the final frame. *)
Lemma frame_finalChunk (id : string) (now : Z) :
  frame (finalChunk (VString id) now) = finalFrameText (Json.quote id) (secondsText now).
Proof. wire_text. Qed.

Lemma frame_errorBody (message : string) :
  frame (errorBody message) = errorFrameText (Json.quote message).
Proof. wire_text. Qed.

(** The bytes of the body of the other mode. *)
Lemma stringify_responseBody (id : string) (now : Z) (result : string) :
  Json.stringify (responseBody (VString id) now result)
  = responseText (Json.quote id) (secondsText now) (Json.quote result).
Proof. wire_text. Qed.

Lemma quoteChars_plain (s : string) : plainText s = true -> Json.quoteChars s = s.
Proof.
  induction s as [|c s IH]; [reflexivity|].
  cbn [plainText Json.quoteChars]. intros H.
  apply andb_true_iff in H as [Hc Hs]. rewrite (IH Hs). clear IH Hs.
  destruct c as [[] [] [] [] [] [] [] []]; try discriminate Hc; reflexivity.
Qed.

(** [JSON.stringify] writes a plain string as it is, between quotes. *)
Lemma quote_plain (s : string) : plainText s = true -> Json.quote s = quoted s.
Proof.
  intros H. unfold Json.quote, quoted. now rewrite (quoteChars_plain _ H).
Qed.

Lemma map_frames_text (id : string) (l : list Fragment) :
  List.map (fun f => frame (deltaChunk (VString id) (fragTime f) (fragData f))) l
  = List.map (fun f => deltaFrameText (Json.quote id) (secondsText (fragTime f))
                         (Json.quote (fragData f))) l.
Proof. apply map_ext. intros f. apply frame_deltaChunk. Qed.

End WireText.

(** C3. For a request answered as an event stream whose answer resolves,
    the frames written are one delta frame per [data] event, then the frame
    of the final chunk, whose [choices[0].delta.content] is the empty string
    and whose finish reason is [stop], then the frame [data: [DONE]]; the
    response is ended after it without another chunk.  The bytes of the two
    last frames are spelled out. *)
Theorem streaming_final_frames (ai : Capability) (req model : value) (prompt : string)
    (answer : Answer) (now : Z) (result : string) :
  accepted req model prompt true ->
  ai prompt model = Normal answer ->
  settlement answer = Resolves now result ->
  (exists before,
      onEnd ai (Normal req)
      = (before ++ [Write (frame (finalChunk model now)); Write doneFrame; End None])%list)
  /\ written (onEnd ai (Normal req))
     = (List.map (fun f => frame (deltaChunk model (fragTime f) (fragData f)))
                 (fragments answer)
        ++ [frame (finalChunk model now); doneFrame])%list
  /\ field "content" (field "delta" (item 0 (field "choices" (finalChunk model now))))
     = VString ""
  /\ field "finish_reason" (finalChunk model now) = VString "stop"
  /\ doneFrame = "data: [DONE]" ++ LF ++ LF
  /\ (exists id before,
        model = VString id
        /\ written (onEnd ai (Normal req))
           = List.app before
                ["data: {" ++ quoted "id" ++ ":" ++ quoted "chatcmpl-xyz" ++ ","
                    ++ quoted "object" ++ ":" ++ quoted "chat.completion" ++ ","
                    ++ quoted "created" ++ ":" ++ secondsText now ++ ","
                    ++ quoted "model" ++ ":" ++ Json.quote id ++ ","
                    ++ quoted "choices" ++ ":[{" ++ quoted "delta" ++ ":{"
                    ++ quoted "content" ++ ":" ++ quoted "" ++ "}}],"
                    ++ quoted "finish_reason" ++ ":" ++ quoted "stop" ++ "}"
                    ++ lineFeed ++ lineFeed;
                  "data: [DONE]" ++ lineFeed ++ lineFeed]
        /\ before
           = List.map (fun f => deltaFrameText (Json.quote id) (secondsText (fragTime f))
                                  (Json.quote (fragData f)))
                      (fragments answer))
  /\ (forall s, plainText s = true -> Json.quote s = quoted s).
Proof.
  intros Hacc Hai Hres.
  destruct (accepted_model_string _ _ _ _ Hacc) as [id ->].
  rewrite (onEnd_accepted ai _ _ _ _ _ Hacc Hai), Hres.
  assert (written
            (Ask prompt (VString id)
               :: WriteHead 200 sseHeaders
               :: List.map (fun f => Write (frame (deltaChunk (VString id) (fragTime f)
                                                     (fragData f))))
                           (fragments answer)
               ++ [Write (frame (finalChunk (VString id) now)); Write doneFrame; End None])
          = (List.map (fun f => frame (deltaChunk (VString id) (fragTime f) (fragData f)))
                      (fragments answer)
             ++ [frame (finalChunk (VString id) now); doneFrame])%list) as Hw.
  { change (written (Ask prompt (VString id) :: WriteHead 200 sseHeaders :: ?t))
      with (written t).
    rewrite written_app, written_writes. reflexivity. }
  split; [|split; [exact Hw|]].
  { exists (Ask prompt (VString id) :: WriteHead 200 sseHeaders
            :: List.map (fun f => Write (frame (deltaChunk (VString id) (fragTime f)
                                                  (fragData f))))
                        (fragments answer)).
    reflexivity. }
  split; [reflexivity|]. split; [reflexivity|]. split; [reflexivity|].
  split; [|exact quote_plain].
  exists id, (List.map (fun f => deltaFrameText (Json.quote id) (secondsText (fragTime f))
                                   (Json.quote (fragData f)))
                       (fragments answer)).
  split; [reflexivity|]. split; [|reflexivity].
  rewrite Hw, map_frames_text, frame_finalChunk. reflexivity.
Qed.

Lemma streaming_final_frames_witness :
  written (onEnd sampleAI (Normal (sampleRequest true)))
  = [deltaFrameText (quoted "OpenAI_GPT4o-mini") "1700000000" (quoted "He");
     deltaFrameText (quoted "OpenAI_GPT4o-mini") "1700000000" (quoted "llo");
     finalFrameText (quoted "OpenAI_GPT4o-mini") "1700000001";
     doneFrameText].
Proof.
  destruct (streaming_final_frames sampleAI (sampleRequest true)
              (VString "OpenAI_GPT4o-mini") "user: hi" sampleAnswer
              1700000001000 "Hello"
              (sample_accepted true) eq_refl eq_refl)
    as (_ & _ & _ & _ & _ & (id & before & Hid & Hw & Hb) & _).
  rewrite Hw, Hb. injection Hid as <-. reflexivity.
Defined.

(** C9. For a request whose answer resolves: in stream mode the last
    envelope written is the final chunk, which has [finish_reason] among its
    own top-level properties, next to [choices], while [choices[0]] has the
    single property [delta]; in the other mode the body is the completion
    response, which has no [finish_reason] at the top level and has it in
    [choices[0]], after [index] and [message].  The bytes written show the
    two positions. *)
Theorem finish_reason_position (ai : Capability) (req model : value) (prompt : string)
    (streamMode : bool) (answer : Answer) (now : Z) (result : string) :
  accepted req model prompt streamMode ->
  ai prompt model = Normal answer ->
  settlement answer = Resolves now result ->
  (if streamMode
   then written (onEnd ai (Normal req))
        = (List.map (fun f => frame (deltaChunk model (fragTime f) (fragData f)))
                    (fragments answer)
           ++ [frame (finalChunk model now); doneFrame])%list
   else written (onEnd ai (Normal req))
        = [Json.stringify (responseBody model now result)])
  /\ keys (finalChunk model now)
     = ["id"; "object"; "created"; "model"; "choices"; "finish_reason"]
  /\ field "finish_reason" (finalChunk model now) = VString "stop"
  /\ keys (item 0 (field "choices" (finalChunk model now))) = ["delta"]
  /\ keys (responseBody model now result)
     = ["id"; "object"; "created"; "model"; "choices"; "usage"]
  /\ keys (item 0 (field "choices" (responseBody model now result)))
     = ["index"; "message"; "finish_reason"]
  /\ field "finish_reason" (item 0 (field "choices" (responseBody model now result)))
     = VString "stop"
  /\ (exists id,
        model = VString id
        /\ if streamMode
           then exists before,
                  written (onEnd ai (Normal req))
                  = List.app before
                       ["data: {" ++ quoted "id" ++ ":" ++ quoted "chatcmpl-xyz" ++ ","
                           ++ quoted "object" ++ ":" ++ quoted "chat.completion" ++ ","
                           ++ quoted "created" ++ ":" ++ secondsText now ++ ","
                           ++ quoted "model" ++ ":" ++ Json.quote id ++ ","
                           ++ quoted "choices" ++ ":[{" ++ quoted "delta" ++ ":{"
                           ++ quoted "content" ++ ":" ++ quoted "" ++ "}}],"
                           ++ quoted "finish_reason" ++ ":" ++ quoted "stop" ++ "}"
                           ++ lineFeed ++ lineFeed;
                         "data: [DONE]" ++ lineFeed ++ lineFeed]
           else written (onEnd ai (Normal req))
                = ["{" ++ quoted "id" ++ ":" ++ quoted "chatcmpl-xyz" ++ ","
                     ++ quoted "object" ++ ":" ++ quoted "chat.completion" ++ ","
                     ++ quoted "created" ++ ":" ++ secondsText now ++ ","
                     ++ quoted "model" ++ ":" ++ Json.quote id ++ ","
                     ++ quoted "choices" ++ ":[{" ++ quoted "index" ++ ":0,"
                     ++ quoted "message" ++ ":{" ++ quoted "role" ++ ":"
                     ++ quoted "assistant" ++ "," ++ quoted "content" ++ ":"
                     ++ Json.quote result ++ "},"
                     ++ quoted "finish_reason" ++ ":" ++ quoted "stop" ++ "}],"
                     ++ quoted "usage" ++ ":{}}"])
  /\ (forall s, plainText s = true -> Json.quote s = quoted s).
Proof.
  intros Hacc Hai Hres.
  destruct (accepted_model_string _ _ _ _ Hacc) as [id ->].
  rewrite (onEnd_accepted ai _ _ _ _ _ Hacc Hai), Hres.
  assert (written
            (Ask prompt (VString id)
               :: WriteHead 200 sseHeaders
               :: List.map (fun f => Write (frame (deltaChunk (VString id) (fragTime f)
                                                     (fragData f))))
                           (fragments answer)
               ++ [Write (frame (finalChunk (VString id) now)); Write doneFrame; End None])
          = (List.map (fun f => frame (deltaChunk (VString id) (fragTime f) (fragData f)))
                      (fragments answer)
             ++ [frame (finalChunk (VString id) now); doneFrame])%list) as Hw.
  { change (written (Ask prompt (VString id) :: WriteHead 200 sseHeaders :: ?t))
      with (written t).
    rewrite written_app, written_writes. reflexivity. }
  split; [destruct streamMode; [exact Hw | reflexivity]|].
  do 6 (split; [reflexivity|]).
  split; [|exact quote_plain].
  exists id. split; [reflexivity|].
  destruct streamMode.
  - exists (List.map (fun f => frame (deltaChunk (VString id) (fragTime f) (fragData f)))
                     (fragments answer)).
    rewrite Hw, frame_finalChunk. reflexivity.
  - change (written [Ask prompt (VString id); WriteHead 200 jsonHeaders;
                     End (Some (Json.stringify (responseBody (VString id) now result)))])
      with [Json.stringify (responseBody (VString id) now result)].
    rewrite stringify_responseBody. reflexivity.
Qed.

Lemma finish_reason_position_witness :
  written (onEnd sampleAI (Normal (sampleRequest false)))
  = [responseText (quoted "OpenAI_GPT4o-mini") "1700000001" (quoted "Hello")].
Proof.
  destruct (finish_reason_position sampleAI (sampleRequest false)
              (VString "OpenAI_GPT4o-mini") "user: hi" false sampleAnswer
              1700000001000 "Hello"
              (sample_accepted false) eq_refl eq_refl)
    as (_ & _ & _ & _ & _ & _ & _ & (id & Hid & Hw) & _).
  rewrite Hw. injection Hid as <-. reflexivity.
Defined.

(** C10. Every envelope written for an accepted request carries the id
    [chatcmpl-xyz] and the object tag [chat.completion], whatever the
    request and the moment: in stream mode the frames written are those of
    one envelope per [data] event and, when the answer resolves, of the
    final chunk, followed by the closing frame; in the other mode the body
    of a resolved answer is one such envelope.  The bytes of each envelope
    start with the two properties. *)
Theorem constant_envelope_id (ai : Capability) (req model : value) (prompt : string)
    (streamMode : bool) (answer : Answer) :
  accepted req model prompt streamMode ->
  ai prompt model = Normal answer ->
  (streamMode = true ->
     exists envelopes,
       Forall constantId envelopes
       /\ length envelopes
          = length (fragments answer)
            + match settlement answer with Resolves _ _ => 1 | Rejects _ => 0 end
       /\ written (onEnd ai (Normal req))
          = (List.map frame envelopes
             ++ match settlement answer with
                | Resolves _ _ => [doneFrame]
                | Rejects message => [frame (errorBody message)]
                end)%list)
  /\ (streamMode = false ->
      forall now result,
        settlement answer = Resolves now result ->
        exists body,
          constantId body
          /\ written (onEnd ai (Normal req)) = [Json.stringify body])
  /\ (let head := quoted "id" ++ ":" ++ quoted "chatcmpl-xyz" ++ ","
                    ++ quoted "object" ++ ":" ++ quoted "chat.completion" ++ "," in
      (streamMode = true ->
         exists rests,
           length rests
           = length (fragments answer)
             + match settlement answer with Resolves _ _ => 1 | Rejects _ => 0 end
           /\ written (onEnd ai (Normal req))
              = List.app
                  (List.map (fun rest => "data: {" ++ head ++ rest) rests)
                  match settlement answer with
                  | Resolves _ _ => ["data: [DONE]" ++ lineFeed ++ lineFeed]
                  | Rejects message =>
                      ["data: {" ++ quoted "error" ++ ":" ++ Json.quote message ++ "}"
                         ++ lineFeed ++ lineFeed]
                  end)
      /\ (streamMode = false ->
          forall now result,
            settlement answer = Resolves now result ->
            exists rest, written (onEnd ai (Normal req)) = ["{" ++ head ++ rest])).
Proof.
  intros Hacc Hai.
  destruct (accepted_model_string _ _ _ _ Hacc) as [id ->].
  rewrite (onEnd_accepted ai _ _ _ _ _ Hacc Hai).
  assert (written
            (Ask prompt (VString id)
               :: WriteHead 200 sseHeaders
               :: List.map (fun f => Write (frame (deltaChunk (VString id) (fragTime f)
                                                     (fragData f))))
                           (fragments answer)
               ++ match settlement answer with
                  | Resolves now _ =>
                      [Write (frame (finalChunk (VString id) now)); Write doneFrame; End None]
                  | Rejects message => [Write (frame (errorBody message)); End None]
                  end)
          = (List.map (fun f => frame (deltaChunk (VString id) (fragTime f) (fragData f)))
                      (fragments answer)
             ++ match settlement answer with
                | Resolves now _ => [frame (finalChunk (VString id) now); doneFrame]
                | Rejects message => [frame (errorBody message)]
                end)%list) as Hw.
  { change (written (Ask prompt (VString id) :: WriteHead 200 sseHeaders :: ?t))
      with (written t).
    rewrite written_app, written_writes. destruct (settlement answer); reflexivity. }
  split; [|split; [|split]].
  - intros ->.
    exists (List.map (fun f => deltaChunk (VString id) (fragTime f) (fragData f))
                     (fragments answer)
            ++ match settlement answer with
               | Resolves now _ => [finalChunk (VString id) now]
               | Rejects _ => []
               end)%list.
    split; [|split].
    + apply Forall_app. split.
      * apply Forall_forall. intros v Hv. apply in_map_iff in Hv as (f & <- & _).
        split; reflexivity.
      * destruct (settlement answer); repeat constructor.
    + rewrite List.length_app, length_map. destruct (settlement answer); reflexivity.
    + rewrite Hw, map_app, map_map, <- List.app_assoc.
      destruct (settlement answer); reflexivity.
  - intros -> now result Hres. rewrite Hres.
    exists (responseBody (VString id) now result). split; [split|]; reflexivity.
  - intros ->.
    exists (List.app
              (List.map (fun f =>
                           quoted "model" ++ ":" ++ Json.quote id ++ ","
                             ++ quoted "created" ++ ":" ++ secondsText (fragTime f) ++ ","
                             ++ quoted "choices" ++ ":[{" ++ quoted "delta" ++ ":{"
                             ++ quoted "content" ++ ":" ++ Json.quote (fragData f) ++ "}}]}"
                             ++ lineFeed ++ lineFeed)
                        (fragments answer))
              match settlement answer with
              | Resolves now _ =>
                  [quoted "created" ++ ":" ++ secondsText now ++ ","
                     ++ quoted "model" ++ ":" ++ Json.quote id ++ ","
                     ++ quoted "choices" ++ ":[{" ++ quoted "delta" ++ ":{"
                     ++ quoted "content" ++ ":" ++ quoted "" ++ "}}],"
                     ++ quoted "finish_reason" ++ ":" ++ quoted "stop" ++ "}"
                     ++ lineFeed ++ lineFeed]
              | Rejects _ => []
              end).
    split.
    + rewrite List.length_app, length_map. destruct (settlement answer); reflexivity.
    + rewrite Hw, map_frames_text, map_app, map_map, <- List.app_assoc. f_equal.
      destruct (settlement answer) as [now result|message].
      * rewrite frame_finalChunk. reflexivity.
      * rewrite frame_errorBody. reflexivity.
  - intros -> now result Hres. rewrite Hres.
    eexists.
    change (written [Ask prompt (VString id); WriteHead 200 jsonHeaders;
                     End (Some (Json.stringify (responseBody (VString id) now result)))])
      with [Json.stringify (responseBody (VString id) now result)].
    rewrite stringify_responseBody. reflexivity.
Qed.

Lemma constant_envelope_id_witness :
  written (onEnd sampleAI (Normal (sampleRequest true)))
  = [deltaFrameText (quoted "OpenAI_GPT4o-mini") "1700000000" (quoted "He");
     deltaFrameText (quoted "OpenAI_GPT4o-mini") "1700000000" (quoted "llo");
     finalFrameText (quoted "OpenAI_GPT4o-mini") "1700000001";
     doneFrameText]
  /\ exists envelopes,
       Forall constantId envelopes /\ length envelopes = 3
       /\ written (onEnd sampleAI (Normal (sampleRequest true)))
          = (List.map frame envelopes ++ [doneFrame])%list.
Proof.
  destruct (constant_envelope_id sampleAI (sampleRequest true)
              (VString "OpenAI_GPT4o-mini") "user: hi" true sampleAnswer
              (sample_accepted true) eq_refl) as (H & _ & _).
  split; [reflexivity|].
  destruct (H eq_refl) as (envelopes & Hid & Hlen & Hwritten).
  exists envelopes. split; [exact Hid|]. split; [exact Hlen | exact Hwritten].
Defined.

(** * Further properties of the formatters *)

Section OtherGrammars.

Lemma formatClaude_typed (msgs : list Message) :
  formatClaude (List.map ofMessage msgs)
  = Normal (String.concat "" (List.map claudePiece msgs) ++ "Assistant:").
Proof.
  unfold formatClaude.
  rewrite (forEach_pieces _ claudePiece).
  - reflexivity.
  - intros acc m. rewrite !get_role, !get_content. unfold bind, toString.
    rewrite !strictEq_string. unfold claudePiece.
    destruct (String.eqb (role m) "system"); [reflexivity|].
    destruct (String.eqb (role m) "user"); [reflexivity|].
    destruct (String.eqb (role m) "assistant"); [reflexivity|].
    now rewrite append_empty_r.
Qed.

Lemma formatGrok_typed (msgs : list Message) :
  formatGrok (List.map ofMessage msgs)
  = Normal (String.concat "" (List.map grokPiece msgs) ++ "Assistant:" ++ LF).
Proof.
  unfold formatGrok.
  rewrite (forEach_pieces _ grokPiece).
  - reflexivity.
  - intros acc m. rewrite !get_role, !get_content. unfold bind, toString.
    rewrite !strictEq_string. unfold grokPiece.
    destruct (String.eqb (role m) "system"); [reflexivity|].
    destruct (String.eqb (role m) "user"); [reflexivity|].
    destruct (String.eqb (role m) "assistant"); [reflexivity|].
    now rewrite append_empty_r.
Qed.

Lemma formatDefault_typed (msgs : list Message) :
  formatDefault (List.map ofMessage msgs)
  = Normal (join (LF ++ LF) (List.map defaultLine msgs)).
Proof.
  unfold formatDefault.
  rewrite (arrayMap_lines _ defaultLine); [reflexivity|].
  intros m. rewrite get_role, get_content. reflexivity.
Qed.

Lemma formatLlama2_typed (msgs : list Message) :
  formatLlama2 (List.map ofMessage msgs) = Normal (trimStart ("<s>" ++ llama2Body msgs)).
Proof.
  destruct msgs as [|m rest]; [reflexivity|].
  unfold llama2Body. destruct (String.eqb (role m) "system") eqn:Hrole.
  - apply String.eqb_eq in Hrole. destruct m as [r c]; simpl in Hrole; subst r.
    change {| role := "system"; content := c |} with (system c).
    rewrite formatLlama2_system. cbn [content system]. f_equal.
    destruct (llama2Turns_length rest) as [-> | Hlen].
    + change (trimStart "") with "". rewrite !append_empty_r.
      rewrite systemBlock_end. unfold trimStart.
      rewrite endsWith_app by (simpl; lia). reflexivity.
    + rewrite <- (append_assoc "<s>" (systemBlock c) (llama2Turns rest)).
      rewrite trimStart_app by exact Hlen.
      now rewrite append_assoc.
  - unfold formatLlama2.
    change (List.map ofMessage (m :: rest)) with (ofMessage m :: List.map ofMessage rest).
    change (optGet (first (ofMessage m :: List.map ofMessage rest)) "role")
      with (Normal (VString (role m))).
    unfold bind at 1. rewrite strictEq_string, Hrole.
    unfold bind at 1.
    change (skipn 0 (ofMessage m :: List.map ofMessage rest))
      with (List.map ofMessage (m :: rest)).
    rewrite (forEach_pieces _ llama2Piece llama2Turn_typed). reflexivity.
Qed.

Lemma llama2Turns_skipped (msgs : list Message) :
  forallb llama2Skipped msgs = true -> llama2Turns msgs = "".
Proof.
  unfold llama2Turns. induction msgs as [|m rest IH]; [reflexivity|].
  intros H. apply andb_true_iff in H as [Hm Hrest].
  change (List.map llama2Piece (m :: rest)) with (llama2Piece m :: List.map llama2Piece rest).
  rewrite concat_cons, (IH Hrest), append_empty_r.
  unfold llama2Skipped in Hm. apply andb_true_iff in Hm as [Hu Ha].
  unfold llama2Piece.
  apply negb_true_iff in Hu, Ha. now rewrite Hu, Ha.
Qed.

End OtherGrammars.

Section Cues.

Lemma startsWith_append (p a b : string) :
  startsWith p a = true -> startsWith p (a ++ b) = true.
Proof.
  revert a. induction p as [|c p IH]; intros a H; [reflexivity|].
  destruct a as [|d a]; simpl in *; [discriminate|].
  apply andb_true_iff in H as [Hc Hp]. now rewrite Hc, (IH _ Hp).
Qed.

Lemma substring_full (s : string) : substring 0 (String.length s) s = s.
Proof. induction s as [|c s IH]; simpl; [reflexivity | now rewrite IH]. Qed.

Lemma endsWith_suffix (x p : string) : endsWith p (x ++ p) = true.
Proof.
  rewrite endsWith_app by lia. unfold endsWith.
  rewrite Nat.leb_refl, Nat.sub_diag, substring_full. apply String.eqb_refl.
Qed.

Lemma nonempty_startsWith (p s : string) : p <> "" -> startsWith p s = true -> s <> "".
Proof. intros Hp H ->. destruct p; [now apply Hp | discriminate H]. Qed.

Lemma nonempty_endsWith (p s : string) : p <> "" -> endsWith p s = true -> s <> "".
Proof.
  intros Hp H ->. destruct p; [now apply Hp | discriminate H].
Qed.

Lemma formatLlama3_shape (msgs : list value) (out : string) :
  formatLlama3 msgs = Normal out ->
  startsWith "<|begin_of_text|>" out = true
  /\ endsWith ("<|start_header_id|>assistant<|end_header_id|>" ++ LF ++ LF) out = true.
Proof.
  unfold formatLlama3.
  match goal with
  | |- context [forEach msgs ?p ?body] =>
      destruct (forEach msgs p body) as [prompt|e] eqn:Hloop; [|discriminate]
  end.
  simpl bind. intros H; injection H as <-. split.
  - apply startsWith_append.
    revert Hloop. apply (forEach_invariant (fun s => startsWith "<|begin_of_text|>" s = true));
      [|reflexivity].
    intros acc msg acc' Hacc.
    destruct (get msg "role") as [r|e]; [|discriminate]. simpl bind.
    destruct (get msg "content") as [c|e]; [|discriminate]. simpl bind.
    destruct (toString c) as [text|e]; [|discriminate]. simpl bind.
    intros H; injection H as <-. now apply startsWith_append.
  - apply endsWith_suffix.
Qed.

Lemma formatMistral_shape (msgs : list value) (out : string) :
  formatMistral msgs = Normal out -> startsWith "<s>" out = true.
Proof.
  unfold formatMistral.
  apply (forEach_invariant (fun s => startsWith "<s>" s = true)); [|reflexivity].
  intros acc msg acc' Hacc.
  destruct (get msg "role") as [r|e]; [|discriminate]. simpl bind.
  destruct (strictEq r "user").
  - destruct (get msg "content") as [c|e]; [|discriminate]. simpl bind.
    destruct (toString c) as [text|e]; [|discriminate]. simpl bind.
    intros H; injection H as <-. now apply startsWith_append.
  - destruct (strictEq r "assistant").
    + destruct (get msg "content") as [c|e]; [|discriminate]. simpl bind.
      destruct (toString c) as [text|e]; [|discriminate]. simpl bind.
      intros H; injection H as <-. now apply startsWith_append.
    + intros H; injection H as <-. exact Hacc.
Qed.

Lemma formatClaude_shape (msgs : list value) (out : string) :
  formatClaude msgs = Normal out -> endsWith "Assistant:" out = true.
Proof.
  unfold formatClaude.
  match goal with
  | |- context [forEach msgs ?p ?body] =>
      destruct (forEach msgs p body) as [prompt|e]; [|discriminate]
  end.
  simpl bind. intros H; injection H as <-. apply endsWith_suffix.
Qed.

Lemma formatGrok_shape (msgs : list value) (out : string) :
  formatGrok msgs = Normal out -> endsWith ("Assistant:" ++ LF) out = true.
Proof.
  unfold formatGrok.
  match goal with
  | |- context [forEach msgs ?p ?body] =>
      destruct (forEach msgs p body) as [prompt|e]; [|discriminate]
  end.
  simpl bind. intros H; injection H as <-. apply endsWith_suffix.
Qed.

End Cues.

(** * Further properties of the handler *)

Section Throwing.

Lemma forEach_null (body : string -> value -> completion string) :
  (forall acc, exists e, body acc VNull = Throw e) ->
  forall msgs acc, In VNull msgs -> exists e, forEach msgs acc body = Throw e.
Proof.
  intros Hnull msgs. induction msgs as [|msg rest IH]; intros acc Hin; [destruct Hin|].
  simpl. destruct (body acc msg) as [acc'|e] eqn:Hbody.
  - simpl. destruct Hin as [->|Hin].
    + destruct (Hnull acc) as [e He]. congruence.
    + apply IH, Hin.
  - now exists e.
Qed.

Lemma arrayMap_null (f : value -> completion string) :
  (exists e, f VNull = Throw e) ->
  forall msgs, In VNull msgs -> exists e, arrayMap f msgs = Throw e.
Proof.
  intros [e0 Hnull] msgs. induction msgs as [|msg rest IH]; intros Hin; [destruct Hin|].
  simpl. destruct (f msg) as [s|e] eqn:Hf.
  - simpl. destruct Hin as [->|Hin]; [congruence|].
    destruct (IH Hin) as [e ->]. now exists e.
  - now exists e.
Qed.

Ltac loop_throws Hin :=
  let e := fresh "e" in
  let He := fresh "He" in
  match goal with
  | |- context [forEach ?l ?p ?body] =>
      destruct (forEach_null body (fun acc => ex_intro _ _ eq_refl) l p Hin) as [e He]
  | |- context [arrayMap ?f ?l] =>
      destruct (arrayMap_null f (ex_intro _ _ eq_refl) l Hin) as [e He]
  end;
  rewrite He; exists e; reflexivity.

(** A sequence with a [null] element makes every formatter throw. *)
Lemma render_null (fam : Family) (flag : bool) (msgs : list value) :
  In VNull msgs -> exists e, render fam flag msgs = Throw e.
Proof.
  intros Hin. destruct fam; simpl.
  - unfold formatLlama3. loop_throws Hin.
  - unfold formatLlama2.
    destruct (optGet (first msgs) "role") as [r0|e] eqn:H0; [|now exists e]. simpl bind.
    destruct (strictEq r0 "system") eqn:Hsys.
    + destruct msgs as [|m rest]; [destruct Hin|]. simpl first in *.
      destruct (get m "content") as [c|e]; [|now exists e]. simpl bind.
      destruct (toString c) as [text|e]; [|now exists e]. simpl bind.
      assert (In VNull rest) as Hrest.
      { destruct Hin as [->|Hin]; [|exact Hin].
        simpl in H0. injection H0 as <-. discriminate Hsys. }
      cbn [skipn]. loop_throws Hrest.
    + simpl bind. cbn [skipn]. loop_throws Hin.
  - unfold formatMistral. loop_throws Hin.
  - unfold formatClaude. loop_throws Hin.
  - unfold formatGrok. loop_throws Hin.
  - unfold formatSimpleChat. loop_throws Hin.
  - unfold formatDefault. loop_throws Hin.
Qed.

Lemma onEnd_format_throws (ai : Capability) (req : value) (msgs : list value) (e : string) :
  get req "messages" = Normal (VArray msgs) ->
  formatPromptForModel msgs (orDefault (field "model" req)) = Throw e ->
  answered 500 e (onEnd ai (Normal req)).
Proof.
  intros Hmsgs Hfmt. unfold answered, onEnd, tryBlock.
  rewrite ioBind_pure, (get_total _ _ "model" _ Hmsgs), ioBind_pure, Hmsgs, ioBind_pure.
  cbn [truthy isArray negb orb elements].
  rewrite Hfmt. reflexivity.
Qed.

End Throwing.

Section Outcomes.

Variable ai : Capability.

Lemma format_model_string (msgs : list value) (m : value) (prompt : string) :
  formatPromptForModel msgs m = Normal prompt -> exists id, m = VString id.
Proof.
  destruct m; try discriminate. intros _. now eexists.
Qed.

Lemma field_get (req : value) (key : string) (v : value) :
  get req key = Normal v -> field key req = v.
Proof. unfold field. now intros ->. Qed.

(** Every run of the handler ends in one of three ways: an error body
    under 400, an error body under 500, or the request is accepted. *)
Lemma onEnd_cases (parsed : completion value) :
  (exists e, answered 400 e (onEnd ai parsed))
  \/ (exists e, answered 500 e (onEnd ai parsed))
  \/ (exists req model prompt,
        parsed = Normal req /\ accepted req model prompt (isTrue (field "stream" req))).
Proof.
  destruct parsed as [req|e]; [|right; left; now exists e].
  destruct (get req "model") as [m|e] eqn:Hm.
  2:{ right; left. exists e. unfold answered, onEnd, tryBlock.
      rewrite ioBind_pure, Hm. reflexivity. }
  pose proof (get_total _ _ "messages" _ Hm) as Hmsgs.
  pose proof (get_total _ _ "stream" _ Hm) as Hs.
  pose proof (field_get _ _ _ Hm) as Hfm.
  destruct (field "messages" req) as [| | | | |msgs|] eqn:Hfield;
    try (left; eexists; apply (onEnd_not_array ai req _ Hmsgs); reflexivity).
  destruct (formatPromptForModel msgs (orDefault (field "model" req))) as [prompt|e] eqn:Hfmt.
  2:{ right; left. exists e. now apply (onEnd_format_throws ai req msgs). }
  destruct (String.eqb_spec prompt "") as [->|Hne].
  - left. eexists. now apply (onEnd_empty_prompt ai req msgs).
  - right; right. exists req, (orDefault m), prompt. split; [reflexivity|].
    exists m, msgs, (field "stream" req).
    rewrite Hfm in Hfmt. repeat split; assumption.
Qed.

Lemma onEnd_ask_throws (req model : value) (prompt : string) (streamMode : bool)
    (e : string) :
  accepted req model prompt streamMode ->
  ai prompt model = Throw e ->
  onEnd ai (Normal req)
  = [Ask prompt model; WriteHead 500 jsonHeaders; End (Some (Json.stringify (errorBody e)))].
Proof.
  intros Hacc Hai. unfold onEnd. rewrite (tryBlock_accepted ai _ _ _ _ Hacc).
  unfold callAsk, ioBind. rewrite Hai. reflexivity.
Qed.

Lemma frame_not_done (props : list (string * value)) : frame (VObject props) <> doneFrame.
Proof. unfold frame, doneFrame, Json.stringify. simpl. discriminate. Qed.

End Outcomes.

(** * Properties beyond the claims *)

(** X1. [formatClaude] renders a system message as its content, a user or
    assistant message behind its prefix, each followed by a blank line, and
    nothing for any other role; the prompt is these pieces in order followed
    by the cue [Assistant:], with which it ends whatever the messages are. *)
Theorem claude_rendering :
  (forall msgs : list Message,
      formatClaude (List.map ofMessage msgs)
      = Normal (String.concat "" (List.map claudePiece msgs) ++ "Assistant:"))
  /\ (forall (msgs : list value) out,
        formatClaude msgs = Normal out -> endsWith "Assistant:" out = true).
Proof. split; [exact formatClaude_typed | exact formatClaude_shape]. Qed.

Lemma claude_rendering_witness :
  endsWith "Assistant:" ("Be brief." ++ LF ++ LF ++ "User: hi" ++ LF ++ LF ++ "Assistant:") = true.
Proof.
  apply (proj2 claude_rendering
           (List.map ofMessage [system "Be brief."; {| role := "user"; content := "hi" |};
                                {| role := "tool"; content := "dropped" |}])).
  reflexivity.
Defined.

(** X2. [formatGrok] renders each system, user or assistant message as a
    labelled block followed by a blank line and nothing for any other role;
    the prompt is these blocks in order followed by the cue [Assistant:] and
    a line break, with which it ends whatever the messages are. *)
Theorem grok_rendering :
  (forall msgs : list Message,
      formatGrok (List.map ofMessage msgs)
      = Normal (String.concat "" (List.map grokPiece msgs) ++ "Assistant:" ++ LF))
  /\ (forall (msgs : list value) out,
        formatGrok msgs = Normal out -> endsWith ("Assistant:" ++ LF) out = true).
Proof. split; [exact formatGrok_typed | exact formatGrok_shape]. Qed.

Lemma grok_rendering_witness :
  endsWith ("Assistant:" ++ LF) ("User:" ++ LF ++ "hi" ++ LF ++ LF ++ "Assistant:" ++ LF) = true.
Proof.
  apply (proj2 grok_rendering
           (List.map ofMessage [{| role := "user"; content := "hi" |}])).
  reflexivity.
Defined.

Lemma concat_first_nonempty (sep x : string) (xs : list string) :
  x <> "" -> String.concat sep (x :: xs) <> "".
Proof.
  intros Hx. destruct x as [|c x]; [now destruct Hx|].
  destruct xs; simpl; discriminate.
Qed.

(** X3. [formatDefault] and [formatSimpleChat] write one line per message,
    whatever its role, so their prompt is empty exactly when the sequence
    is: with these families the empty-prompt guard of the handler is a guard
    on the empty sequence. *)
Theorem line_formats_empty_only_on_empty (msgs : list Message) :
  (exists out,
      formatDefault (List.map ofMessage msgs) = Normal out
      /\ out = join (LF ++ LF) (List.map (fun m => "<" ++ role m ++ ">: " ++ content m) msgs)
      /\ (out = "" <-> msgs = []))
  /\ (forall flag, exists out,
        formatSimpleChat (List.map ofMessage msgs) flag = Normal out
        /\ (out = "" <-> msgs = [])).
Proof.
  split.
  - eexists. split; [apply formatDefault_typed|]. split; [reflexivity|].
    destruct msgs as [|m rest]; [now split|].
    split; [|discriminate]. intros H. exfalso. revert H.
    apply concat_first_nonempty. discriminate.
  - intros flag. eexists. split; [apply formatSimpleChat_typed|].
    destruct msgs as [|m rest]; [now split|].
    split; [|discriminate]. intros H. exfalso. revert H.
    apply concat_first_nonempty. unfold simpleChatSpecLine.
    destruct (negb flag && String.eqb (role m) "system"); [discriminate|].
    destruct (role m); discriminate.
Qed.

Lemma llama2Body_snoc (msgs : list Message) (m : Message) :
  leadsWithSystem (msgs ++ [m]) = leadsWithSystem msgs ->
  llama2Body (msgs ++ [m]) = llama2Body msgs ++ llama2Piece m.
Proof.
  assert (forall l, llama2Turns (l ++ [m]) = llama2Turns l ++ llama2Piece m) as Hturns.
  { intros l. unfold llama2Turns. induction l as [|x l IH]; [reflexivity|].
    change (List.map llama2Piece ((x :: l) ++ [m]))
      with (llama2Piece x :: List.map llama2Piece (l ++ [m])).
    change (List.map llama2Piece (x :: l)) with (llama2Piece x :: List.map llama2Piece l).
    now rewrite !concat_cons, IH, append_assoc. }
  destruct msgs as [|x rest].
  - simpl. intros H. rewrite H. unfold llama2Turns. simpl. reflexivity.
  - intros _. unfold llama2Body. cbn [app].
    destruct (String.eqb (role x) "system").
    + now rewrite Hturns, append_assoc.
    + exact (Hturns (x :: rest)).
Qed.

(** X4. [formatLlama2] on any typed sequence: the sequence-start marker,
    the system block when the first message is a system message, what the
    other messages contribute in order (a system message after the first and
    a message of an unknown role contribute nothing), and one trailing
    marker removed.  So a sequence that ends with a user message gives a
    prompt that ends with the closed instruction, and one that ends with an
    assistant message gives a prompt that ends with the sequence-end marker,
    the marker that would start the next turn being removed. *)
Theorem llama2_full_rendering :
  (forall msgs : list Message,
      formatLlama2 (List.map ofMessage msgs)
      = Normal (trimStart ("<s>" ++ llama2Body msgs)))
  /\ (forall (msgs : list Message) c,
        formatLlama2 (List.map ofMessage (msgs ++ [{| role := "user"; content := c |}]))
        = Normal ("<s>" ++ llama2Body msgs ++ "[INST] " ++ c ++ " [/INST]"))
  /\ (forall (msgs : list Message) c,
        formatLlama2 (List.map ofMessage (msgs ++ [{| role := "assistant"; content := c |}]))
        = Normal ("<s>" ++ llama2Body msgs ++ " " ++ c ++ " </s>")).
Proof.
  split; [exact formatLlama2_typed|]. split.
  - intros msgs c. rewrite formatLlama2_typed, llama2Body_snoc by (now destruct msgs).
    f_equal. change (llama2Piece {| role := "user"; content := c |})
      with ("[INST] " ++ c ++ " [/INST]").
    rewrite <- !append_assoc. unfold trimStart.
    rewrite endsWith_app by (simpl; lia). reflexivity.
  - intros msgs c. rewrite formatLlama2_typed, llama2Body_snoc by (now destruct msgs).
    f_equal. change (llama2Piece {| role := "assistant"; content := c |})
      with (" " ++ c ++ " </s><s>").
    change (" </s><s>") with (" </s>" ++ "<s>").
    rewrite <- !append_assoc. unfold trimStart.
    rewrite endsWith_app by (simpl; lia).
    change (endsWith "<s>" "<s>") with true. cbv iota.
    rewrite sliceEnd_app by (simpl; lia). change (sliceEnd "<s>" 3) with "".
    now rewrite append_empty_r.
Qed.

(** X5. A non-empty sequence can still be answered 400: with an identifier
    of the Llama2 family, when no message is a user or assistant message and
    the first one is not a system message, [formatLlama2] returns the empty
    prompt and the handler rejects the request without an inference
    call. *)
Theorem llama2_unrendered_roles_rejected (ai : Capability) (req : value) (id : string)
    (msgs : list Message) :
  classify id = Llama2 ->
  orDefault (field "model" req) = VString id ->
  get req "messages" = Normal (VArray (List.map ofMessage msgs)) ->
  forallb llama2Skipped msgs = true ->
  leadsWithSystem msgs = false ->
  formatLlama2 (List.map ofMessage msgs) = Normal ""
  /\ answered 400 "Missing 'content' in the last message" (onEnd ai (Normal req)).
Proof.
  intros Hfam Hmodel Hmsgs Hskipped Hlead.
  assert (formatLlama2 (List.map ofMessage msgs) = Normal "") as Hfmt.
  { rewrite formatLlama2_typed.
    assert (llama2Body msgs = "") as ->; [|reflexivity].
    destruct msgs as [|m rest]; [reflexivity|].
    unfold llama2Body. simpl in Hlead. rewrite Hlead.
    now apply llama2Turns_skipped. }
  split; [exact Hfmt|].
  apply (onEnd_empty_prompt ai req (List.map ofMessage msgs) Hmsgs).
  rewrite Hmodel, dispatch, Hfam. exact Hfmt.
Qed.

Lemma llama2_unrendered_roles_rejected_witness :
  answered 400 "Missing 'content' in the last message"
    (onEnd sampleAI
       (Normal (VObject [("model", VString "CodeLlama-13b");
                         ("messages",
                          VArray (List.map ofMessage
                                    [{| role := "tool"; content := "42" |};
                                     system "Be brief."]))]))).
Proof.
  apply (llama2_unrendered_roles_rejected sampleAI _ "CodeLlama-13b"
           [{| role := "tool"; content := "42" |}; system "Be brief."]);
    reflexivity.
Defined.

(** X6. Whatever the messages are, a prompt of [formatLlama3] starts with
    the begin-of-text marker and ends with the open assistant header, a
    prompt of [formatMistral] starts with the sequence-start marker, and a
    prompt of [formatClaude] or [formatGrok] ends with its cue: for an
    identifier of these four families the prompt is never empty, so the
    empty-prompt guard never rejects the request. *)
Theorem marked_prompts_never_empty (msgs : list value) (id : string) (out : string) :
  emptyOnEmpty (classify id) = false ->
  formatPromptForModel msgs (VString id) = Normal out ->
  out <> ""
  /\ match classify id with
     | Llama3 =>
         startsWith "<|begin_of_text|>" out = true
         /\ endsWith ("<|start_header_id|>assistant<|end_header_id|>" ++ LF ++ LF) out = true
     | Mistral => startsWith "<s>" out = true
     | Claude => endsWith "Assistant:" out = true
     | Grok => endsWith ("Assistant:" ++ LF) out = true
     | _ => True
     end.
Proof.
  intros Hfam. rewrite dispatch.
  destruct (classify id); try discriminate Hfam; simpl; intros Hout.
  - destruct (formatLlama3_shape _ _ Hout) as [Hs He]. split; [|now split].
    apply (nonempty_startsWith "<|begin_of_text|>"); [discriminate | exact Hs].
  - pose proof (formatMistral_shape _ _ Hout) as Hs. split; [|exact Hs].
    apply (nonempty_startsWith "<s>"); [discriminate | exact Hs].
  - pose proof (formatClaude_shape _ _ Hout) as He. split; [|exact He].
    apply (nonempty_endsWith "Assistant:"); [discriminate | exact He].
  - pose proof (formatGrok_shape _ _ Hout) as He. split; [|exact He].
    apply (nonempty_endsWith ("Assistant:" ++ LF)); [discriminate | exact He].
Qed.

Lemma marked_prompts_never_empty_witness :
  "<s>[INST] 5 [/INST]" <> "" /\ startsWith "<s>" "<s>[INST] 5 [/INST]" = true.
Proof.
  exact (marked_prompts_never_empty
           [VObject [("role", VString "user"); ("content", VNumber "5")]; VString "stray"]
           "Mistral_Nemo" "<s>[INST] 5 [/INST]" eq_refl eq_refl).
Defined.

(** X7. A [null] among the messages makes the formatter of every family
    throw on reading its role, and the handler answers 500 with the message
    of that error, not 400, and makes no inference call. *)
Theorem null_message_answered_500 (ai : Capability) (req : value) (id : string)
    (msgs : list value) :
  orDefault (field "model" req) = VString id ->
  get req "messages" = Normal (VArray msgs) ->
  In VNull msgs ->
  exists e,
    formatPromptForModel msgs (VString id) = Throw e
    /\ answered 500 e (onEnd ai (Normal req)).
Proof.
  intros Hmodel Hmsgs Hin.
  destruct (render_null (classify id) (systemSupported id) msgs Hin) as [e He].
  rewrite <- dispatch in He. exists e. split; [exact He|].
  apply (onEnd_format_throws ai req msgs e Hmsgs). now rewrite Hmodel.
Qed.

Lemma null_message_answered_500_witness :
  exists e,
    answered 500 e
      (onEnd sampleAI
         (Normal (VObject [("messages",
                            VArray [ofMessage {| role := "user"; content := "hi" |}; VNull])]))).
Proof.
  destruct (null_message_answered_500 sampleAI
              (VObject [("messages",
                         VArray [ofMessage {| role := "user"; content := "hi" |}; VNull])])
              "OpenAI_GPT4o-mini"
              [ofMessage {| role := "user"; content := "hi" |}; VNull]
              eq_refl eq_refl (or_intror (or_introl eq_refl))) as (e & _ & H).
  now exists e.
Defined.

(** X8. In a request whose [messages] is an array, a [model] that is
    truthy but not a string (a number, [true], an array, an object) is not
    replaced by the default: the formatter throws on calling [toLowerCase]
    on it before it looks at any message, and the handler answers 500
    without an inference call.  (Without an array [messages] the guard
    before the formatter answers 400 first.) *)
Theorem non_string_model_answered_500 (ai : Capability) (req m : value)
    (msgs : list value) :
  get req "model" = Normal m ->
  truthy m = true ->
  (forall s, m <> VString s) ->
  get req "messages" = Normal (VArray msgs) ->
  answered 500 "modelId.toLowerCase is not a function" (onEnd ai (Normal req)).
Proof.
  intros Hm Htruthy Hns Hmsgs.
  apply (onEnd_format_throws ai req msgs _ Hmsgs).
  rewrite (field_get _ _ _ Hm). unfold orDefault. rewrite Htruthy.
  destruct m; try discriminate Htruthy; try reflexivity.
  now destruct (Hns s).
Qed.

Lemma non_string_model_answered_500_witness :
  answered 500 "modelId.toLowerCase is not a function"
    (onEnd sampleAI
       (Normal (VObject [("model", VNumber "4");
                         ("messages", VArray [ofMessage {| role := "user"; content := "hi" |}])]))).
Proof.
  apply (non_string_model_answered_500 sampleAI _ (VNumber "4")
           [ofMessage {| role := "user"; content := "hi" |}]);
    try reflexivity.
  intros s H. discriminate H.
Defined.

Lemma simpleChat_supported_lines (msgs : list Message) :
  simpleChatSpec true msgs
  = join (LF ++ LF) (List.map (fun m => role m ++ ": " ++ content m) msgs).
Proof. reflexivity. Qed.

(** X9. A request without [model], or with a falsy one ([null], [false],
    [0], the empty string), is served with the identifier
    [OpenAI_GPT4o-mini]: for a non-empty typed sequence and a request that
    does not stream, the prompt sent is the [role: content] lines joined by
    blank lines, system messages included, and a resolved answer comes back
    under status 200 as the content of the assistant message, with that
    identifier as the model. *)
Theorem default_model_batch (ai : Capability) (req : value) (msgs : list Message)
    (answer : Answer) (now : Z) (result : string) :
  let prompt := join (LF ++ LF) (List.map (fun m => role m ++ ": " ++ content m) msgs) in
  let model := VString "OpenAI_GPT4o-mini" in
  msgs <> [] ->
  get req "messages" = Normal (VArray (List.map ofMessage msgs)) ->
  truthy (field "model" req) = false ->
  isTrue (field "stream" req) = false ->
  ai prompt model = Normal answer ->
  settlement answer = Resolves now result ->
  onEnd ai (Normal req)
  = [Ask prompt model; WriteHead 200 jsonHeaders;
     End (Some (Json.stringify (responseBody model now result)))]
  /\ field "content" (field "message" (item 0 (field "choices" (responseBody model now result))))
     = VString result
  /\ field "model" (responseBody model now result) = model.
Proof.
  intros prompt model Hne Hmsgs Hfalsy Hbatch Hai Hres.
  split; [|split; reflexivity].
  assert (accepted req model prompt false) as Hacc.
  { exists (field "model" req), (List.map ofMessage msgs), (field "stream" req).
    split; [exact (get_total _ _ _ _ Hmsgs)|].
    split; [unfold orDefault; now rewrite Hfalsy|].
    split; [exact Hmsgs|].
    split; [exact (formatSimpleChat_typed true msgs)|].
    split.
    - subst prompt. destruct msgs as [|m rest]; [now destruct Hne|].
      apply concat_first_nonempty. destruct (role m); discriminate.
    - split; [exact (get_total _ _ _ _ Hmsgs) | now rewrite Hbatch]. }
  rewrite (onEnd_accepted ai _ _ _ _ _ Hacc Hai), Hres. reflexivity.
Qed.

Lemma default_model_batch_witness :
  onEnd sampleAI (Normal (sampleRequest false))
  = [Ask "user: hi" (VString "OpenAI_GPT4o-mini"); WriteHead 200 jsonHeaders;
     End (Some (Json.stringify
                  (responseBody (VString "OpenAI_GPT4o-mini") 1700000001000 "Hello")))].
Proof.
  refine (proj1 (default_model_batch sampleAI (sampleRequest false)
                   [{| role := "user"; content := "hi" |}] sampleAnswer
                   1700000001000 "Hello" _ eq_refl eq_refl eq_refl eq_refl eq_refl)).
  discriminate.
Defined.

Lemma statuses_writes {A} (chunk : A -> string) (l : list A) :
  statuses (List.map (fun x => Write (chunk x)) l) = [].
Proof. induction l as [|x l IH]; simpl; [reflexivity | exact IH]. Qed.

Lemma statuses_app (t u : list Effect) : statuses (t ++ u) = (statuses t ++ statuses u)%list.
Proof. unfold statuses. apply flat_map_app. Qed.

(** X10. When the answer of a streaming request rejects, the response is
    already under status 200: the frames written are the delta frames of the
    [data] events received so far followed by one frame with the error
    message, and the [data: [DONE]] frame is never written. *)
Theorem stream_rejection_frames (ai : Capability) (req model : value) (prompt : string)
    (answer : Answer) (message : string) :
  accepted req model prompt true ->
  ai prompt model = Normal answer ->
  settlement answer = Rejects message ->
  statuses (onEnd ai (Normal req)) = [200%Z]
  /\ written (onEnd ai (Normal req))
     = (List.map (fun f => frame (deltaChunk model (fragTime f) (fragData f)))
                 (fragments answer)
        ++ [frame (errorBody message)])%list
  /\ ~ In doneFrame (written (onEnd ai (Normal req)))
  /\ exists before, onEnd ai (Normal req) = (before ++ [End None])%list.
Proof.
  intros Hacc Hai Hrej.
  rewrite (onEnd_accepted ai _ _ _ _ _ Hacc Hai), Hrej.
  assert (written (Ask prompt model
                     :: WriteHead 200 sseHeaders
                     :: List.map (fun f => Write (frame (deltaChunk model (fragTime f) (fragData f))))
                                 (fragments answer)
                     ++ [Write (frame (errorBody message)); End None])
          = (List.map (fun f => frame (deltaChunk model (fragTime f) (fragData f)))
                      (fragments answer)
             ++ [frame (errorBody message)])%list) as Hw.
  { change (written (Ask prompt model :: WriteHead 200 sseHeaders :: ?t)) with (written t).
    rewrite written_app, written_writes. reflexivity. }
  split; [|split; [exact Hw|split]].
  - change (statuses (Ask prompt model :: WriteHead 200 sseHeaders :: ?t))
      with (200%Z :: statuses t).
    now rewrite statuses_app, statuses_writes.
  - rewrite Hw. intros Hin. apply in_app_or in Hin as [Hin|[Hin|[]]].
    + apply in_map_iff in Hin as (f & Hf & _). exact (frame_not_done _ Hf).
    + exact (frame_not_done _ Hin).
  - exists (Ask prompt model
            :: WriteHead 200 sseHeaders
            :: List.map (fun f => Write (frame (deltaChunk model (fragTime f) (fragData f))))
                        (fragments answer)
            ++ [Write (frame (errorBody message))])%list.
    cbn [app]. now rewrite <- List.app_assoc.
Qed.

Lemma stream_rejection_frames_witness :
  written (onEnd rejectingAI (Normal (sampleRequest true)))
  = [frame (deltaChunk (VString "OpenAI_GPT4o-mini") 1700000000123 "He");
     frame (errorBody "quota exceeded")].
Proof.
  exact (proj1 (proj2 (stream_rejection_frames rejectingAI (sampleRequest true)
                         (VString "OpenAI_GPT4o-mini") "user: hi" rejectedAnswer
                         "quota exceeded" (sample_accepted true) eq_refl eq_refl))).
Defined.

(** X11. The failures of the capability that reach the [catch]: when
    [AI.ask] throws, in either mode, and when the awaited answer of a
    request that does not stream rejects, the handler has made its one
    inference call and answers 500 with the message of the error; the two
    cases give the same response. *)
Theorem upstream_failure_answered_500 (ai : Capability) (req model : value)
    (prompt : string) (streamMode : bool) (e : string) :
  accepted req model prompt streamMode ->
  (ai prompt model = Throw e
   \/ (streamMode = false
       /\ exists answer, ai prompt model = Normal answer /\ settlement answer = Rejects e)) ->
  onEnd ai (Normal req)
  = [Ask prompt model; WriteHead 500 jsonHeaders; End (Some (Json.stringify (errorBody e)))].
Proof.
  intros Hacc [Hthrow | (-> & answer & Hai & Hrej)].
  - exact (onEnd_ask_throws ai _ _ _ _ _ Hacc Hthrow).
  - rewrite (onEnd_accepted ai _ _ _ _ _ Hacc Hai), Hrej. reflexivity.
Qed.

Lemma upstream_failure_answered_500_witness :
  onEnd throwingAI (Normal (sampleRequest true))
  = [Ask "user: hi" (VString "OpenAI_GPT4o-mini"); WriteHead 500 jsonHeaders;
     End (Some (Json.stringify (errorBody "unknown model")))]
  /\ onEnd rejectingAI (Normal (sampleRequest false))
     = [Ask "user: hi" (VString "OpenAI_GPT4o-mini"); WriteHead 500 jsonHeaders;
        End (Some (Json.stringify (errorBody "quota exceeded")))].
Proof.
  split.
  - apply (upstream_failure_answered_500 throwingAI _ _ _ true _ (sample_accepted true)).
    left. reflexivity.
  - apply (upstream_failure_answered_500 rejectingAI _ _ _ false _ (sample_accepted false)).
    right. split; [reflexivity|]. exists rejectedAnswer. split; reflexivity.
Defined.

(** X12. In every run in which [AI.ask] throws or its answer settles after
    finitely many [data] events, which are the runs an [Answer] describes,
    and whatever the body is, the handler writes the head of the response
    exactly once, then only chunks, and ends the response exactly once, last;
    it makes at most one inference call, and makes it before it writes
    anything.  While an answer is pending the response is not ended; that is
    outside this statement. *)
Theorem response_shape (ai : Capability) (parsed : completion value) :
  exists before status headers chunks last,
    onEnd ai parsed
    = (before ++ WriteHead status headers :: List.map Write chunks ++ [End last])%list
    /\ (before = [] \/ exists prompt model, before = [Ask prompt model]).
Proof.
  destruct (onEnd_cases ai parsed) as [[e H] | [[e H] | (req & model & prompt & -> & Hacc)]].
  - exists [], 400%Z, jsonHeaders, [], (Some (Json.stringify (errorBody e))).
    split; [exact H | now left].
  - exists [], 500%Z, jsonHeaders, [], (Some (Json.stringify (errorBody e))).
    split; [exact H | now left].
  - destruct (ai prompt model) as [answer|e] eqn:Hai.
    + rewrite (onEnd_accepted ai _ _ _ _ _ Hacc Hai).
      destruct (isTrue (field "stream" req)).
      * exists [Ask prompt model], 200%Z, sseHeaders,
          (List.map (fun f => frame (deltaChunk model (fragTime f) (fragData f)))
                    (fragments answer)
           ++ match settlement answer with
              | Resolves now _ => [frame (finalChunk model now); doneFrame]
              | Rejects message => [frame (errorBody message)]
              end)%list,
          None.
        split; [|right; now exists prompt, model].
        cbn [app]. do 2 f_equal.
        rewrite map_app, map_map, <- List.app_assoc. f_equal.
        destruct (settlement answer); reflexivity.
      * destruct (settlement answer) as [now result|message].
        -- exists [Ask prompt model], 200%Z, jsonHeaders, [],
             (Some (Json.stringify (responseBody model now result))).
           split; [reflexivity | right; now exists prompt, model].
        -- exists [Ask prompt model], 500%Z, jsonHeaders, [],
             (Some (Json.stringify (errorBody message))).
           split; [reflexivity | right; now exists prompt, model].
    + rewrite (onEnd_ask_throws ai _ _ _ _ _ Hacc Hai).
      exists [Ask prompt model], 500%Z, jsonHeaders, [],
        (Some (Json.stringify (errorBody e))).
      split; [reflexivity | right; now exists prompt, model].
Qed.

(** X13. The handler calls the capability only for a request it has
    validated: every inference call carries a non-empty prompt, which the
    formatter returned for the array [messages] of a parsed body, and an
    identifier that is a string. *)
Theorem ask_only_after_validation (ai : Capability) (parsed : completion value)
    (prompt : string) (model : value) :
  In (prompt, model) (asks (onEnd ai parsed)) ->
  prompt <> ""
  /\ exists req msgs id,
       parsed = Normal req
       /\ get req "messages" = Normal (VArray msgs)
       /\ model = VString id
       /\ formatPromptForModel msgs (VString id) = Normal prompt.
Proof.
  destruct (onEnd_cases ai parsed) as [[e H] | [[e H] | (req & model' & prompt' & -> & Hacc)]].
  - rewrite H. intros [].
  - rewrite H. intros [].
  - rewrite (asks_accepted ai _ _ _ _ Hacc). intros [Heq|[]].
    injection Heq as -> ->.
    destruct Hacc as (m & msgs & s & Hm & Hmodel & Hmsgs & Hfmt & Hne & _).
    split; [exact Hne|].
    destruct (format_model_string _ _ _ Hfmt) as [id Hid].
    exists req, msgs, id. rewrite <- Hid. repeat split; assumption.
Qed.

Lemma ask_only_after_validation_witness :
  "user: hi" <> ""
  /\ exists req msgs id,
       Normal (sampleRequest false) = Normal req
       /\ get req "messages" = Normal (VArray msgs)
       /\ VString "OpenAI_GPT4o-mini" = VString id
       /\ formatPromptForModel msgs (VString id) = Normal "user: hi".
Proof.
  apply (ask_only_after_validation sampleAI (Normal (sampleRequest false))).
  left. reflexivity.
Defined.

(** X14. An accepted request is answered as an event stream exactly when
    its [stream] is the boolean [true] and [AI.ask] returns an answer: any
    other value of [stream], such as the string [true] or the number [1],
    gets the JSON response, and so does a streaming request on which
    [AI.ask] throws, which is answered 500. *)
Theorem stream_only_on_true (ai : Capability) (req model : value) (prompt : string)
    (streamMode : bool) :
  accepted req model prompt streamMode ->
  (In (WriteHead 200 sseHeaders) (onEnd ai (Normal req))
   <-> field "stream" req = VBool true /\ exists answer, ai prompt model = Normal answer).
Proof.
  intros Hacc. destruct (ai prompt model) as [answer|e] eqn:Hai.
  - rewrite (onEnd_accepted ai _ _ _ _ _ Hacc Hai).
    destruct Hacc as (m & msgs & s & _ & _ & _ & _ & _ & Hs & ->).
    rewrite (field_get _ _ _ Hs).
    destruct s as [| |[|]| | | |]; cbn [isTrue];
      try (split; [|intros [H _]; discriminate H];
           intros [H|H]; [discriminate H|];
           destruct (settlement answer); simpl in H;
           repeat (destruct H as [H|H]; [discriminate H|]); destruct H).
    split; [intros _; split; [reflexivity | now exists answer]|].
    intros _. right. now left.
  - rewrite (onEnd_ask_throws ai _ _ _ _ _ Hacc Hai). split.
    + intros [H|[H|[H|[]]]]; discriminate H.
    + intros [_ [answer H]]. discriminate H.
Qed.

Lemma stream_only_on_true_witness :
  ~ In (WriteHead 200 sseHeaders)
      (onEnd sampleAI
         (Normal (VObject [("messages", VArray [ofMessage {| role := "user"; content := "hi" |}]);
                           ("stream", VString "true")])))
  /\ ~ In (WriteHead 200 sseHeaders) (onEnd throwingAI (Normal (sampleRequest true)))
  /\ In (WriteHead 200 sseHeaders) (onEnd sampleAI (Normal (sampleRequest true))).
Proof.
  split; [|split].
  - intros H.
    apply (stream_only_on_true sampleAI _ (VString "OpenAI_GPT4o-mini") "user: hi" false)
      in H; [destruct H as [H _]; discriminate H|].
    exists VUndefined, [ofMessage {| role := "user"; content := "hi" |}], (VString "true").
    repeat split; try reflexivity. discriminate.
  - intros H.
    apply (stream_only_on_true throwingAI _ _ _ _ (sample_accepted true)) in H.
    destruct H as [_ [answer H]]. discriminate H.
  - apply (stream_only_on_true sampleAI _ _ _ _ (sample_accepted true)).
    split; [reflexivity | now exists sampleAnswer].
Defined.

(** X15. The default format is used exactly for the identifiers in whose
    lower case none of the sixteen words of the rules occurs. *)
Theorem default_family_iff_no_word (id : string) :
  (classify id = Default
   <-> forall w, In w words -> includes w (toLowerCase id) = false)
  /\ (classify id = Default ->
      forall msgs, formatPromptForModel msgs (VString id) = formatDefault msgs).
Proof.
  assert (classify id = Default
          <-> forall w, In w words -> includes w (toLowerCase id) = false) as Hiff.
  { rewrite classify_matchedWord. unfold matchedWord. split.
    - destruct (find _ words) as [w|] eqn:Hfind.
      + apply find_some in Hfind as [Hin _]. intros Hfam. exfalso.
        cbn in Hin.
        repeat (destruct Hin as [<-|Hin]; [discriminate Hfam|]). destruct Hin.
      + intros _ w Hin. exact (find_none _ _ Hfind w Hin).
    - intros H. cbn [words rules flat_map fst app find].
      repeat match goal with
             | |- context [includes ?w (toLowerCase id)] =>
                 rewrite (H w) by (cbn; tauto)
             end.
      reflexivity. }
  split; [exact Hiff|].
  intros Hfam msgs. now rewrite dispatch, Hfam.
Qed.

Lemma default_family_iff_no_word_witness :
  formatPromptForModel [ofMessage {| role := "user"; content := "hi" |}] (VString "Perplexity_Sonar")
  = formatDefault [ofMessage {| role := "user"; content := "hi" |}].
Proof.
  apply (proj2 (default_family_iff_no_word "Perplexity_Sonar")). reflexivity.
Defined.

Section Listener.

Variable names : list string.
Variable ai : Capability.

Lemma indexToString_inj (i j : nat) : indexToString i = indexToString j -> i = j.
Proof.
  assert (forall n, option_map Nat.of_uint (NilZero.uint_of_string (indexToString n)) = Some n)
    as Hback.
  { intros n. unfold indexToString.
    assert (Nat.to_uint n <> Decimal.Nil) as Hnil.
    { rewrite <- (DecimalNat.Unsigned.of_to n), DecimalNat.Unsigned.to_of.
      unfold Decimal.unorm. destruct (Decimal.nzhead (Nat.to_uint n)); discriminate. }
    rewrite (NilZero.usu _ Hnil). simpl. now rewrite DecimalNat.Unsigned.of_to. }
  intros H. pose proof (Hback i) as Hi. rewrite H, Hback in Hi. now injection Hi.
Qed.

Lemma modelEntries_ids (l : list string) (i : nat) :
  List.map (field "id") (modelEntries i l)
  = List.map (fun k => VString (indexToString k)) (seq i (length l)).
Proof.
  revert i. induction l as [|name l IH]; intros i; [reflexivity|].
  simpl. f_equal. apply IH.
Qed.

Lemma modelEntries_names (l : list string) (i : nat) :
  List.map (field "name") (modelEntries i l) = List.map VString l.
Proof.
  revert i. induction l as [|name l IH]; intros i; [reflexivity|].
  simpl. f_equal. apply IH.
Qed.

End Listener.

(** X16. [GET /v1/models] answers 200 with a JSON array that has one entry
    per value of [AI.Model], in the order of the values: the [name] of the
    entry at position [i] is the [i]-th value and its [id] is the decimal
    text of [i], so no two entries share an id even when two values are
    equal. *)
Theorem models_listing (names : list string) (ai : Capability) (parsed : completion value) :
  listener names ai "GET" "/v1/models" parsed
  = [Respond (WriteHead 200 jsonHeaders);
     Respond (End (Some (Json.stringify (VArray (modelEntries 0 names)))))]
  /\ List.map (field "name") (modelEntries 0 names) = List.map VString names
  /\ List.map (field "id") (modelEntries 0 names)
     = List.map (fun i => VString (indexToString i)) (seq 0 (length names))
  /\ NoDup (List.map (field "id") (modelEntries 0 names))
  /\ indexToString 0 = "0" /\ indexToString 10 = "10".
Proof.
  split; [reflexivity|].
  split; [apply modelEntries_names|].
  split; [apply modelEntries_ids|].
  split; [|split; reflexivity].
  rewrite modelEntries_ids. apply Finite.Injective_map_NoDup; [|apply seq_NoDup].
  intros i j H. injection H as H. now apply indexToString_inj.
Qed.

Lemma closeServer_not_responded (t : list Effect) : ~ In CloseServer (List.map Respond t).
Proof. intros Hin. apply in_map_iff in Hin as (e & H & _). discriminate H. Qed.

Ltac route_cases method url :=
  unfold listener;
  destruct (String.eqb_spec method "POST");
  destruct (String.eqb_spec url "/kill");
  destruct (String.eqb_spec method "GET");
  destruct (String.eqb_spec url "/v1/models");
  destruct (String.eqb_spec url "/v1/chat/completions");
  subst; try congruence; cbn [andb orb negb].

(** X17. The server is closed by [POST /kill] and by no other request: the
    method and the path are compared as they are, so another method, or a
    path with a query or a trailing slash, does not match.  A request that
    matches none of the three routes is answered 404, and
    [POST /v1/chat/completions] is answered by the completion handler. *)
Theorem routing (names : list string) (ai : Capability) (method url : string)
    (parsed : completion value) :
  (In CloseServer (listener names ai method url parsed)
   <-> method = "POST" /\ url = "/kill")
  /\ (listener names ai method url parsed = notFound
      \/ (method = "POST" /\ url = "/kill")
      \/ (method = "GET" /\ url = "/v1/models")
      \/ (method = "POST" /\ url = "/v1/chat/completions"))
  /\ listener names ai "POST" "/v1/chat/completions" parsed
     = List.map Respond (onEnd ai parsed).
Proof.
  split; [|split; [|reflexivity]].
  - route_cases method url;
      (split;
       [ intros Hin;
         first [ now split
               | exfalso; exact (closeServer_not_responded _ Hin)
               | exfalso; simpl in Hin;
                 repeat (destruct Hin as [Hin|Hin]; [discriminate Hin|]); destruct Hin ]
       | intros [Hm Hu]; first [ simpl; tauto | congruence ] ]).
  - route_cases method url; tauto.
Qed.

Section LineBreaks.











End LineBreaks.

Section Readings.

Lemma forEach_ext (body : string -> value -> completion string) (l l' : list value) :
  Forall2 (fun a b => forall acc, body acc a = body acc b) l l' ->
  forall acc, forEach l acc body = forEach l' acc body.
Proof.
  induction 1 as [|a b l l' Hab _ IH]; intros acc; [reflexivity|].
  simpl. rewrite Hab. destruct (body acc b); simpl; [apply IH | reflexivity].
Qed.

Lemma arrayMap_ext (f : value -> completion string) (l l' : list value) :
  Forall2 (fun a b => f a = f b) l l' -> arrayMap f l = arrayMap f l'.
Proof.
  induction 1 as [|a b l l' Hab _ IH]; [reflexivity|].
  simpl. now rewrite Hab, IH.
Qed.

Ltac same_content Hc :=
  unfold bind in Hc |- *;
  repeat match goal with
         | |- context [get ?x "content"] =>
             lazymatch x with
             | _ => destruct (get x "content")
             end
         end;
  repeat match goal with
         | |- context [toString ?c] => destruct (toString c)
         | H : context [toString ?c] |- _ => destruct (toString c)
         end;
  try discriminate Hc; try (injection Hc as ->); try reflexivity.

Lemma llama2Turn_same (a b : value) :
  sameReading a b -> forall acc, llama2Turn acc a = llama2Turn acc b.
Proof.
  intros [Hr Hc] acc. unfold llama2Turn. rewrite Hr.
  destruct (get b "role") as [r|e]; [|reflexivity]. cbn [bind].
  destruct (strictEq r "user"); [same_content Hc|].
  destruct (strictEq r "assistant"); [same_content Hc | reflexivity].
Qed.

Lemma sameReading_optGet (a b : value) :
  get a "role" = get b "role" -> optGet a "role" = optGet b "role".
Proof.
  destruct a, b; simpl; intros H; try reflexivity; try discriminate H; exact H.
Qed.

Lemma Forall2_body (P : value -> value -> Prop) (l l' : list value) :
  Forall2 sameReading l l' ->
  (forall a b, sameReading a b -> P a b) ->
  Forall2 P l l'.
Proof. intros H HP. induction H; constructor; auto. Qed.

Lemma formatters_same (l l' : list value) :
  Forall2 sameReading l l' ->
  forall fam flag, render fam flag l = render fam flag l'.
Proof.
  intros H fam flag. destruct fam; simpl.
  - unfold formatLlama3. erewrite forEach_ext; [reflexivity|].
    apply (Forall2_body _ _ _ H). intros a b [Hr Hc] acc. rewrite Hr.
    destruct (get b "role") as [r|e]; [|reflexivity]. cbn [bind]. same_content Hc.
  - unfold formatLlama2. destruct H as [|a b l l' Hab H]; [reflexivity|].
    cbn [first]. rewrite (sameReading_optGet a b (proj1 Hab)).
    destruct (optGet b "role") as [r0|e]; [|reflexivity]. cbn [bind].
    pose proof (Forall2_body _ _ _ H llama2Turn_same) as Hrest.
    pose proof (Forall2_body _ _ _ (Forall2_cons _ _ Hab H) llama2Turn_same) as Hall.
    destruct (strictEq r0 "system").
    + destruct Hab as [_ Hc]. unfold bind in Hc |- *.
      destruct (get a "content") as [ca|ea], (get b "content") as [cb|eb];
        try destruct (toString ca); try destruct (toString cb);
        try discriminate Hc; try (injection Hc as ->); try reflexivity.
      cbn [bind skipn]. now rewrite (forEach_ext _ _ _ Hrest).
    + cbn [bind skipn]. now rewrite (forEach_ext _ _ _ Hall).
  - unfold formatMistral. apply forEach_ext.
    apply (Forall2_body _ _ _ H). intros a b [Hr Hc] acc. rewrite Hr.
    destruct (get b "role") as [r|e]; [|reflexivity]. cbn [bind].
    destruct (strictEq r "user"); [same_content Hc|].
    destruct (strictEq r "assistant"); [same_content Hc | reflexivity].
  - unfold formatClaude. erewrite forEach_ext; [reflexivity|].
    apply (Forall2_body _ _ _ H). intros a b [Hr Hc] acc. rewrite Hr.
    destruct (get b "role") as [r|e]; [|reflexivity]. cbn [bind].
    destruct (strictEq r "system"); [same_content Hc|].
    destruct (strictEq r "user"); [same_content Hc|].
    destruct (strictEq r "assistant"); [same_content Hc | reflexivity].
  - unfold formatGrok. erewrite forEach_ext; [reflexivity|].
    apply (Forall2_body _ _ _ H). intros a b [Hr Hc] acc. rewrite Hr.
    destruct (get b "role") as [r|e]; [|reflexivity]. cbn [bind].
    destruct (strictEq r "system"); [same_content Hc|].
    destruct (strictEq r "user"); [same_content Hc|].
    destruct (strictEq r "assistant"); [same_content Hc | reflexivity].
  - unfold formatSimpleChat. erewrite arrayMap_ext; [reflexivity|].
    apply (Forall2_body _ _ _ H). intros a b [Hr Hc]. unfold simpleChatLine. rewrite Hr.
    destruct (get b "role") as [r|e]; [|reflexivity]. cbn [bind].
    destruct (negb flag && strictEq r "system"); [same_content Hc|].
    destruct (toString r); [|reflexivity]. cbn [bind]. same_content Hc.
  - unfold formatDefault. erewrite arrayMap_ext; [reflexivity|].
    apply (Forall2_body _ _ _ H). intros a b [Hr Hc]. rewrite Hr.
    destruct (get b "role") as [r|e]; [|reflexivity]. cbn [bind].
    destruct (toString r); [|reflexivity]. cbn [bind]. same_content Hc.
Qed.

End Readings.



(** X19. The formatters look at a message only through the read of its
    [role] and the text of its [content]: sequences whose messages read
    alike get the same prompt, or the same error, for every identifier.  So
    a message without [content] is formatted as if its content were the text
    [undefined], and a content that is [null], a boolean or a number as if
    it were the text of that value. *)
Theorem messages_read_by_role_and_text :
  (forall l l' modelId,
      Forall2 sameReading l l' ->
      formatPromptForModel l modelId = formatPromptForModel l' modelId)
  /\ (forall r, sameReading (VObject [("role", VString r)])
                            (ofMessage {| role := r; content := "undefined" |}))
  /\ (forall r, sameReading (VObject [("role", VString r); ("content", VNull)])
                            (ofMessage {| role := r; content := "null" |}))
  /\ (forall r, sameReading (VObject [("role", VString r); ("content", VBool true)])
                            (ofMessage {| role := r; content := "true" |}))
  /\ (forall r text,
        sameReading (VObject [("role", VString r); ("content", VNumber text)])
                    (ofMessage {| role := r; content := text |})).
Proof.
  split; [|repeat split].
  intros l l' modelId H.
  destruct modelId as [| | | |id| |]; try reflexivity.
  rewrite !dispatch. now apply formatters_same.
Qed.

Lemma messages_read_by_role_and_text_witness :
  formatPromptForModel [VObject [("role", VString "user")]] (VString "Mistral_Nemo")
  = Normal "<s>[INST] undefined [/INST]".
Proof.
  destruct messages_read_by_role_and_text as (Hsame & Hmissing & _).
  rewrite (Hsame _ [ofMessage {| role := "user"; content := "undefined" |}]).
  - reflexivity.
  - constructor; [apply Hmissing | constructor].
Defined.

Lemma routing_witness :
  ~ In CloseServer
      (listener ["OpenAI_GPT4o-mini"] sampleAI "GET" "/kill" (Throw "Unexpected end of JSON input")).
Proof.
  intros H.
  apply (proj1 (routing ["OpenAI_GPT4o-mini"] sampleAI "GET" "/kill"
                  (Throw "Unexpected end of JSON input"))) in H.
  destruct H as [H _]. discriminate H.
Defined.
